(** * Object permission managers of django-guardian (guardian/managers.py)

    A shallow embedding of [UserObjectPermissionManager] and
    [GroupObjectPermissionManager]: the two managers that assign, remove
    and list object permissions, keep the key-based permission cache in step
    with the assignment tables and, for groups, invalidate the cache entries
    of the members.

    The managers are embedded as programs of a state-and-exception monad
    over the database tables they touch, the cache and the warnings that
    were emitted. *)

From Stdlib Require Import ZArith List Bool.
From stdpp Require Import base strings gmap list fin_maps pretty.

Open Scope Z_scope.
Open Scope string_scope.
Open Scope list_scope.

(** ** Data model *)

(** A model instance handed to a manager: its content type (what
    [ContentType.objects.get_for_model] answers, as the primary key of the
    content type) and its primary key, [None] for an instance that was never
    saved ([getattr(obj, 'pk', None)]). *)
Record Obj := { obj_content_type : Z; obj_pk : option Z }.

(** A row of [auth_permission]. *)
Record Permission := {
  perm_id : Z;
  perm_content_type : Z;
  perm_codename : string
}.

(** A row of the user table with the groups it belongs to. *)
Record User := { user_pk : Z; user_groups : list Z }.

Record Group := { group_pk : Z }.

(** Modelled from the spec: the object permission models of
    guardian/models.py, which the managers are attached to, are not part of
    the sources.  The spec describes the assignment store as holding
    (subject, object-type, object-id, permission) tuples; a row is such a
    tuple with the primary key the database gave it.  [row_subject] is the
    primary key of the user (user table) or of the group (group table). *)
Record Row := {
  row_id : Z;
  row_permission : Permission;
  row_subject : Z;
  row_content_type : Z;
  row_object_pk : Z
}.

#[global] Instance Obj_eq_dec : EqDecision Obj.
Proof. solve_decision. Defined.
#[global] Instance Permission_eq_dec : EqDecision Permission.
Proof. solve_decision. Defined.
#[global] Instance User_eq_dec : EqDecision User.
Proof. solve_decision. Defined.
#[global] Instance Group_eq_dec : EqDecision Group.
Proof. solve_decision. Defined.
#[global] Instance Row_eq_dec : EqDecision Row.
Proof. solve_decision. Defined.

(** The keyword arguments the managers pass to [get_or_create] and
    [filter]; one constructor per key of the [kwargs] and [filters]
    dictionaries of the source. *)
Inductive Lookup :=
| kw_permission (p : Permission)
| kw_permission__codename (c : string)
| kw_permission__content_type (ct : Z)
| kw_user (u : User)
| kw_group (g : Group)
| kw_content_type (ct : Z)
| kw_object_pk (pk : Z)
| kw_content_object (o : Obj)
| kw_content_object__pk (pk : Z).

(** The meta information of the model a manager is attached to: the names of
    its fields. *)
Record Manager := { model_fields : list string }.

Inductive Exception :=
| ObjectNotPersisted
| DoesNotExist
| MultipleObjectsReturned
| IntegrityError
| FieldError.

Inductive WarningCategory := DeprecationWarning.

(** Whom an [ObjectPermissionChecker] is built for. *)
Inductive Identity :=
| UserIdentity (pk : Z)
| GroupIdentity (pk : Z).

(** [ObjectPermissionChecker(user_or_group).get_local_cache_key(obj)] lives
    in guardian/core.py; the managers only consume it. *)
Class ObjectPermissionChecker := {
  get_local_cache_key : Identity -> Obj -> string
}.

(** Everything the managers read or write. *)
Record State := {
  auth_permission : list Permission;
  auth_user : list User;
  user_object_permission : list Row;
  group_object_permission : list Row;
  cache : gmap string (list string);
  warnings : list (string * WarningCategory)
}.

Inductive Table := UserTable | GroupTable.

Definition table (t : Table) (st : State) : list Row :=
  match t with
  | UserTable => user_object_permission st
  | GroupTable => group_object_permission st
  end.

Definition set_table (t : Table) (rows : list Row) (st : State) : State :=
  match t with
  | UserTable =>
      {| auth_permission := auth_permission st; auth_user := auth_user st;
         user_object_permission := rows;
         group_object_permission := group_object_permission st;
         cache := cache st; warnings := warnings st |}
  | GroupTable =>
      {| auth_permission := auth_permission st; auth_user := auth_user st;
         user_object_permission := user_object_permission st;
         group_object_permission := rows;
         cache := cache st; warnings := warnings st |}
  end.

Definition set_cache (c : gmap string (list string)) (st : State) : State :=
  {| auth_permission := auth_permission st; auth_user := auth_user st;
     user_object_permission := user_object_permission st;
     group_object_permission := group_object_permission st;
     cache := c; warnings := warnings st |}.

Definition set_warnings (w : list (string * WarningCategory)) (st : State)
  : State :=
  {| auth_permission := auth_permission st; auth_user := auth_user st;
     user_object_permission := user_object_permission st;
     group_object_permission := group_object_permission st;
     cache := cache st; warnings := w |}.

(** ** The monad: state passing with exceptions

    A raised exception ends the computation and keeps the state as it was
    when it was raised. *)

Inductive Outcome (A : Type) :=
| Return (a : A)
| Raise (e : Exception).
Arguments Return {A} a.
Arguments Raise {A} e.

Definition M (A : Type) : Type := State -> Outcome A * State.

Definition ret {A} (a : A) : M A := fun st => (Return a, st).

Definition raise {A} (e : Exception) : M A := fun st => (Raise e, st).

Definition bind {A B} (m : M A) (k : A -> M B) : M B :=
  fun st =>
    match m st with
    | (Return a, st') => k a st'
    | (Raise e, st') => (Raise e, st')
    end.

Declare Scope m_scope.
Delimit Scope m_scope with M.
Notation "x <- m ;; k" := (bind m (fun x => k))
  (at level 100, m at next level, right associativity) : m_scope.
Notation "m ;;; k" := (bind m (fun _ => k))
  (at level 100, right associativity) : m_scope.
Open Scope m_scope.

Definition gets {A} (f : State -> A) : M A := fun st => (Return (f st), st).

Definition modify (f : State -> State) : M unit :=
  fun st => (Return tt, f st).

(** [for x in xs: body x] *)
Fixpoint for_each {A} (xs : list A) (body : A -> M unit) : M unit :=
  match xs with
  | [] => ret tt
  | x :: rest => body x ;;; for_each rest body
  end.

(** ** The collaborators: query sets, the permission table, the cache *)

Definition get_for_model (obj : Obj) : Z := obj_content_type obj.

(** Whether a row satisfies one keyword of a filter.  A row carries the
    permission row its foreign key points to: a keyword that spans the
    foreign key ([permission__codename], [permission__content_type]) reads
    that permission, as the join does in a state where every assignment
    points to a row of the permission table, a table the managers only
    read.  [content_object] is compared by the identity (content type and
    primary key) of the instance. *)
Definition holds (l : Lookup) (r : Row) : bool :=
  match l with
  | kw_permission p => bool_decide (row_permission r = p)
  | kw_permission__codename c =>
      bool_decide (perm_codename (row_permission r) = c)
  | kw_permission__content_type ct =>
      bool_decide (perm_content_type (row_permission r) = ct)
  | kw_user u => bool_decide (row_subject r = user_pk u)
  | kw_group g => bool_decide (row_subject r = group_pk g)
  | kw_content_type ct => bool_decide (row_content_type r = ct)
  | kw_object_pk pk => bool_decide (row_object_pk r = pk)
  | kw_content_object o =>
      bool_decide (row_content_type r = get_for_model o)
      && bool_decide (Some (row_object_pk r) = obj_pk o)
  | kw_content_object__pk pk => bool_decide (row_object_pk r = pk)
  end.

(** A row is selected when every keyword holds (the keywords are joined by
    AND). *)
Definition matches (kwargs : list Lookup) (r : Row) : bool :=
  forallb (fun l => holds l r) kwargs.

(** [QuerySet.filter(kwargs)], in table order. *)
Definition qs_filter (kwargs : list Lookup) (rows : list Row) : list Row :=
  List.filter (matches kwargs) rows.

(** [QuerySet.filter(kwargs).delete()]: what is left of the table. *)
Definition qs_delete (kwargs : list Lookup) (rows : list Row) : list Row :=
  List.filter (fun r => negb (matches kwargs r)) rows.

(** The values [Model(kwargs)] gives the columns of a new row. *)
Fixpoint kwargs_permission (kwargs : list Lookup) : option Permission :=
  match kwargs with
  | [] => None
  | kw_permission p :: _ => Some p
  | _ :: rest => kwargs_permission rest
  end.

Fixpoint kwargs_subject (kwargs : list Lookup) : option Z :=
  match kwargs with
  | [] => None
  | kw_user u :: _ => Some (user_pk u)
  | kw_group g :: _ => Some (group_pk g)
  | _ :: rest => kwargs_subject rest
  end.

Fixpoint kwargs_content_type (kwargs : list Lookup) : option Z :=
  match kwargs with
  | [] => None
  | kw_content_type ct :: _ => Some ct
  | kw_content_object o :: _ => Some (get_for_model o)
  | _ :: rest => kwargs_content_type rest
  end.

Fixpoint kwargs_object_pk (kwargs : list Lookup) : option Z :=
  match kwargs with
  | [] => None
  | kw_object_pk pk :: _ => Some pk
  | kw_content_object o :: _ => obj_pk o
  | _ :: rest => kwargs_object_pk rest
  end.

(** The primary key of the next row: above every key in the table, as an
    auto-incremented key is.  The sequence of the database, which also
    remembers the keys of deleted rows, is not part of the state. *)
Definition next_id (rows : list Row) : Z :=
  1 + fold_right Z.max 0 (map row_id rows).

(** The row [create(kwargs)] would insert; a column left without a value
    violates its NOT NULL constraint. *)
Definition new_row (kwargs : list Lookup) (rows : list Row) : option Row :=
  match kwargs_permission kwargs, kwargs_subject kwargs,
        kwargs_content_type kwargs, kwargs_object_pk kwargs with
  | Some p, Some s, Some ct, Some pk =>
      Some {| row_id := next_id rows; row_permission := p; row_subject := s;
              row_content_type := ct; row_object_pk := pk |}
  | _, _, _, _ => None
  end.

(** [self.get_or_create(kwargs)] on the table of the manager: [get] the
    one row that matches, [create] it when there is none. *)
Definition get_or_create (t : Table) (kwargs : list Lookup) : M (Row * bool) :=
  rows <- gets (table t) ;;
  match qs_filter kwargs rows with
  | [r] => ret (r, false)
  | [] =>
      match new_row kwargs rows with
      | Some r => modify (set_table t (rows ++ [r])) ;;; ret (r, true)
      | None => raise IntegrityError
      end
  | _ :: _ :: _ => raise MultipleObjectsReturned
  end.

(** [self.filter(kwargs)] *)
Definition objects_filter (t : Table) (kwargs : list Lookup) : M (list Row) :=
  rows <- gets (table t) ;; ret (qs_filter kwargs rows).

(** [self.filter(filters).delete()] *)
Definition objects_filter_delete (t : Table) (filters : list Lookup) : M unit :=
  rows <- gets (table t) ;; modify (set_table t (qs_delete filters rows)).

(** [Permission.objects.get(content_type=ctype, codename=perm)] *)
Definition Permission_objects_get (ctype : Z) (perm : string) : M Permission :=
  perms <- gets auth_permission ;;
  match List.filter
          (fun p => bool_decide (perm_content_type p = ctype)
                    && bool_decide (perm_codename p = perm)) perms with
  | [p] => ret p
  | [] => raise DoesNotExist
  | _ :: _ :: _ => raise MultipleObjectsReturned
  end.

(** [User.objects.filter(groups = group)] *)
Definition User_objects_filter_groups (group : Group) : M (list User) :=
  users <- gets auth_user ;;
  ret (List.filter (fun u => bool_decide (group_pk group ∈ user_groups u)) users).

(** [cache.get(key)]: [None] on a miss. *)
Definition cache_get (key : string) : M (option (list string)) :=
  gets (fun st => cache st !! key).

Definition cache_set (key : string) (value : list string) : M unit :=
  modify (fun st => set_cache (<[key := value]> (cache st)) st).

Definition cache_delete (key : string) : M unit :=
  modify (fun st => set_cache (delete key (cache st)) st).

(** [warnings.warn(message, category)] *)
Definition warn (message : string) (category : WarningCategory) : M unit :=
  modify (fun st => set_warnings (warnings st ++ [(message, category)]) st).

(** [perm in cache_perms] *)
Definition contains (perm : string) (cache_perms : list string) : bool :=
  existsb (String.eqb perm) cache_perms.

(** [cache_perms.pop(cache_index)] *)
Definition pop (cache_index : nat) (cache_perms : list string) : list string :=
  take cache_index cache_perms ++ drop (S cache_index) cache_perms.

(** The loop of [remove_perm] over the cached list:
<<
    cache_index = 0
    for cache_perm in cache_perms:
        if perm == cache_perm:
            cache_perms.pop(cache_index)
            break
        cache_index += 1
>>
    [todo] is what the iteration has not visited yet. *)
Fixpoint pop_first_loop (perm : string) (todo : list string)
    (cache_index : nat) (cache_perms : list string) : list string :=
  match todo with
  | [] => cache_perms
  | cache_perm :: rest =>
      if String.eqb perm cache_perm then pop cache_index cache_perms
      else pop_first_loop perm rest (S cache_index) cache_perms
  end.

Definition pop_first (perm : string) (cache_perms : list string) : list string :=
  pop_first_loop perm cache_perms 0%nat cache_perms.

(** ** The managers *)

Module BaseObjectPermissionManager.

(** [self.model._meta.get_field(name)]; [None] stands for
    [FieldDoesNotExist]. *)
Definition get_field (self : Manager) (name : string) : option string :=
  List.find (String.eqb name) (model_fields self).

Definition is_generic (self : Manager) : bool :=
  match get_field self "object_pk" with
  | Some _ => true
  | None => false
  end.

(** [self.filter(content_type = ctype, ...)].  The query set resolves the
    keyword [content_type] on the fields of the model and raises
    [FieldError] when the model has no field of that name, which is the case
    of the models [is_generic] tells apart by their lacking [object_pk]:
    they hold a foreign key [content_object] instead of the pair
    [content_type], [object_pk].  The other keywords of the managers
    ([permission], the subject, and the object keywords that
    [assign_perm] and [remove_perm] choose by [is_generic]) name fields the
    model has. *)
Definition filter_content_type (self : Manager) (t : Table) (ctype : Z)
    (kwargs : list Lookup) : M (list Row) :=
  match get_field self "content_type" with
  | Some _ => objects_filter t (kw_content_type ctype :: kwargs)
  | None => raise FieldError
  end.

End BaseObjectPermissionManager.

Module UserObjectPermissionManager.
Import BaseObjectPermissionManager.

Definition assign_perm `{!ObjectPermissionChecker}
    (self : Manager) (perm : string) (user : User) (obj : Obj) : M Row :=
  match obj_pk obj with
  | None => raise ObjectNotPersisted
  | Some pk =>
      let ctype := get_for_model obj in
      permission <- Permission_objects_get ctype perm ;;
      let kwargs := [kw_permission permission; kw_user user] in
      let kwargs :=
        if is_generic self
        then kwargs ++ [kw_content_type ctype; kw_object_pk pk]
        else kwargs ++ [kw_content_object obj] in
      created <- get_or_create UserTable kwargs ;;
      let obj_perm := fst created in
      (* Add to cache *)
      let key := get_local_cache_key (UserIdentity (user_pk user)) obj in
      cache_perms <- cache_get key ;;
      match cache_perms with
      | Some cache_perms =>
          if negb (contains perm cache_perms)
          then cache_set key (cache_perms ++ [perm])
          else ret tt
      | None => ret tt
      end ;;;
      ret obj_perm
  end.

Definition assign `{!ObjectPermissionChecker}
    (self : Manager) (perm : string) (user : User) (obj : Obj) : M Row :=
  warn "UserObjectPermissionManager method 'assign' is being renamed to 'assign_perm'. Update your code accordingly as old name will be depreciated in 1.0.5 version."
       DeprecationWarning ;;;
  assign_perm self perm user obj.

Definition remove_perm `{!ObjectPermissionChecker}
    (self : Manager) (perm : string) (user : User) (obj : Obj) : M unit :=
  match obj_pk obj with
  | None => raise ObjectNotPersisted
  | Some pk =>
      let filters :=
        [kw_permission__codename perm;
         kw_permission__content_type (get_for_model obj);
         kw_user user] in
      let filters :=
        if is_generic self
        then filters ++ [kw_object_pk pk]
        else filters ++ [kw_content_object__pk pk] in
      objects_filter_delete UserTable filters ;;;
      (* Remove for cache *)
      let key := get_local_cache_key (UserIdentity (user_pk user)) obj in
      cache_perms <- cache_get key ;;
      match cache_perms with
      | Some cache_perms =>
          if contains perm cache_perms
          then cache_set key (pop_first perm cache_perms)
          else ret tt
      | None => ret tt
      end
  end.

Definition get_for_object
    (self : Manager) (user : User) (obj : Obj) : M (list Row) :=
  match obj_pk obj with
  | None => raise ObjectNotPersisted
  | Some _ =>
      let ctype := get_for_model obj in
      perms <- filter_content_type self UserTable ctype [kw_user user] ;;
      ret perms
  end.

End UserObjectPermissionManager.

Module GroupObjectPermissionManager.
Import BaseObjectPermissionManager.

Definition assign_perm `{!ObjectPermissionChecker}
    (self : Manager) (perm : string) (group : Group) (obj : Obj) : M Row :=
  match obj_pk obj with
  | None => raise ObjectNotPersisted
  | Some pk =>
      let ctype := get_for_model obj in
      permission <- Permission_objects_get ctype perm ;;
      let kwargs := [kw_permission permission; kw_group group] in
      let kwargs :=
        if is_generic self
        then kwargs ++ [kw_content_type ctype; kw_object_pk pk]
        else kwargs ++ [kw_content_object obj] in
      created <- get_or_create GroupTable kwargs ;;
      let obj_perm := fst created in
      (* Add to cache *)
      let key := get_local_cache_key (GroupIdentity (group_pk group)) obj in
      cache_perms <- cache_get key ;;
      match cache_perms with
      | Some cache_perms =>
          if negb (contains perm cache_perms)
          then cache_set key (cache_perms ++ [perm])
          else ret tt
      | None => ret tt
      end ;;;
      users <- User_objects_filter_groups group ;;
      for_each users (fun user =>
        let key := get_local_cache_key (UserIdentity (user_pk user)) obj in
        cache_delete key) ;;;
      ret obj_perm
  end.

Definition assign `{!ObjectPermissionChecker}
    (self : Manager) (perm : string) (user : Group) (obj : Obj) : M Row :=
  warn "UserObjectPermissionManager method 'assign' is being renamed to 'assign_perm'. Update your code accordingly as old name will be depreciated in 1.0.5 version."
       DeprecationWarning ;;;
  assign_perm self perm user obj.

Definition remove_perm `{!ObjectPermissionChecker}
    (self : Manager) (perm : string) (group : Group) (obj : Obj) : M unit :=
  match obj_pk obj with
  | None => raise ObjectNotPersisted
  | Some pk =>
      let filters :=
        [kw_permission__codename perm;
         kw_permission__content_type (get_for_model obj);
         kw_group group] in
      let filters :=
        if is_generic self
        then filters ++ [kw_object_pk pk]
        else filters ++ [kw_content_object__pk pk] in
      objects_filter_delete GroupTable filters ;;;
      (* Remove for cache *)
      let key := get_local_cache_key (GroupIdentity (group_pk group)) obj in
      cache_perms <- cache_get key ;;
      match cache_perms with
      | Some cache_perms =>
          if contains perm cache_perms
          then cache_set key (pop_first perm cache_perms)
          else ret tt
      | None => ret tt
      end ;;;
      users <- User_objects_filter_groups group ;;
      for_each users (fun user =>
        let key := get_local_cache_key (UserIdentity (user_pk user)) obj in
        cache_delete key)
  end.

Definition get_for_object
    (self : Manager) (group : Group) (obj : Obj) : M (list Row) :=
  match obj_pk obj with
  | None => raise ObjectNotPersisted
  | Some _ =>
      let ctype := get_for_model obj in
      perms <- filter_content_type self GroupTable ctype [kw_group group] ;;
      ret perms
  end.

End GroupObjectPermissionManager.

(** ** What the cache blocks compute *)

(** The cache after the block "Add to cache" of [assign_perm]. *)
Definition patch_on_grant (key perm : string) (c : gmap string (list string))
  : gmap string (list string) :=
  match c !! key with
  | Some cache_perms =>
      if contains perm cache_perms then c
      else <[key := cache_perms ++ [perm]]> c
  | None => c
  end.

(** The cache after the block "Remove for cache" of [remove_perm]. *)
Definition patch_on_revoke (key perm : string) (c : gmap string (list string))
  : gmap string (list string) :=
  match c !! key with
  | Some cache_perms =>
      if contains perm cache_perms then <[key := pop_first perm cache_perms]> c
      else c
  | None => c
  end.

(** The cache after [cache.delete] ran over [keys], first key first. *)
Definition invalidate (keys : list string) (c : gmap string (list string))
  : gmap string (list string) :=
  fold_left (fun c key => delete key c) keys c.

(** The users [User.objects.filter(groups = group)] selects. *)
Definition members (group : Group) (st : State) : list User :=
  List.filter (fun u => bool_decide (group_pk group ∈ user_groups u))
    (auth_user st).

(** The cache keys of a user, of a group and of the members of a group for
    an object. *)
Definition user_key `{!ObjectPermissionChecker} (user : User) (obj : Obj) : string :=
  get_local_cache_key (UserIdentity (user_pk user)) obj.

Definition group_key `{!ObjectPermissionChecker} (group : Group) (obj : Obj) : string :=
  get_local_cache_key (GroupIdentity (group_pk group)) obj.

Definition member_keys `{!ObjectPermissionChecker}
    (group : Group) (obj : Obj) (st : State) : list string :=
  map (fun u => user_key u obj) (members group st).

(** ** What the tables hold *)

(** The uniqueness constraint of the assignment tables: no two rows for the
    same subject, permission and object. *)
Definition row_key (r : Row) : Z * Permission * Z * Z :=
  (row_subject r, row_permission r, row_content_type r, row_object_pk r).

Definition unique_together (rows : list Row) : Prop :=
  NoDup (map row_key rows).

(** The rows of a table for one subject, permission and object. *)
Definition rows_for (subject : Z) (p : Permission) (ct pk : Z)
    (rows : list Row) : list Row :=
  List.filter (fun r => bool_decide (row_key r = (subject, p, ct, pk))) rows.

(** The keyword arguments [assign_perm] hands to [get_or_create], [who]
    being its [user] or [group] keyword. *)
Definition grant_kwargs (self : Manager) (who : Lookup) (permission : Permission)
    (obj : Obj) (pk : Z) : list Lookup :=
  if BaseObjectPermissionManager.is_generic self
  then [kw_permission permission; who] ++
       [kw_content_type (get_for_model obj); kw_object_pk pk]
  else [kw_permission permission; who] ++ [kw_content_object obj].

(** The filters [remove_perm] deletes by. *)
Definition revoke_filters (self : Manager) (who : Lookup) (perm : string)
    (obj : Obj) (pk : Z) : list Lookup :=
  if BaseObjectPermissionManager.is_generic self
  then [kw_permission__codename perm;
        kw_permission__content_type (get_for_model obj); who] ++
       [kw_object_pk pk]
  else [kw_permission__codename perm;
        kw_permission__content_type (get_for_model obj); who] ++
       [kw_content_object__pk pk].

(** The subject a [user] or [group] keyword stands for. *)
Definition subject_of (who : Lookup) : option Z :=
  match who with
  | kw_user u => Some (user_pk u)
  | kw_group g => Some (group_pk g)
  | _ => None
  end.

(** [l'] is [l] without its first occurrence of [perm]. *)
Definition first_occurrence_removed (perm : string) (l l' : list string) : Prop :=
  exists l1 l2, l = l1 ++ perm :: l2 /\ ~ In perm l1 /\ l' = l1 ++ l2.

(** How the block "Remove for cache" relates the cache [c] before it and the
    cache [c'] after it, for the entry under [key]. *)
Definition revoke_patched (perm key : string)
    (c c' : gmap string (list string)) : Prop :=
  (forall l, c !! key = Some l -> In perm l ->
     exists l', first_occurrence_removed perm l l'
                /\ S (length l') = length l
                /\ c' = <[key := l']> c)
  /\ (c !! key = None -> c' = c).

(** The rows a revoke is after: by permission codename, the content type of
    the permission, subject and object key. *)
Definition revoked_rows (perm : string) (ct subject pk : Z) (rows : list Row)
  : list Row :=
  List.filter
    (fun r => bool_decide (perm_codename (row_permission r) = perm)
              && bool_decide (perm_content_type (row_permission r) = ct)
              && bool_decide (row_subject r = subject)
              && bool_decide (row_object_pk r = pk)) rows.

(** The rows of one content type and one subject. *)
Definition rows_of_type (ct subject : Z) (rows : list Row) : list Row :=
  List.filter
    (fun r => bool_decide (row_content_type r = ct)
              && bool_decide (row_subject r = subject)) rows.

(** A program that neither reads nor writes the emitted warnings: run with
    other warnings it has the same outcome and the same final state, but for
    the warnings, which it passes on. *)
Definition ignores_warnings {A} (m : M A) : Prop :=
  forall w st,
    m (set_warnings w st) = (fst (m st), set_warnings w (snd (m st))).

(** ** A small installation, for concrete runs

    One content type (3) with the permission "view", the user alice (1) in
    the group editors (10), bob (2) in no group, and a saved document (5). *)

Definition demo_key (i : Identity) (o : Obj) : string :=
  (match i with
   | UserIdentity pk => "user:" ++ pretty pk
   | GroupIdentity pk => "group:" ++ pretty pk
   end
   ++ ":" ++ pretty (obj_content_type o)
   ++ ":" ++ match obj_pk o with Some pk => pretty pk | None => "None" end)%string.

Definition demo_checker : ObjectPermissionChecker :=
  {| get_local_cache_key := demo_key |}.

Definition generic_manager : Manager :=
  {| model_fields := ["id"; "permission"; "content_type"; "object_pk"] |}.

Definition direct_manager : Manager :=
  {| model_fields := ["id"; "permission"; "content_object"] |}.

Definition view : Permission :=
  {| perm_id := 7; perm_content_type := 3; perm_codename := "view" |}.

Definition alice : User := {| user_pk := 1; user_groups := [10] |}.
Definition bob : User := {| user_pk := 2; user_groups := [] |}.
Definition editors : Group := {| group_pk := 10 |}.

Definition document : Obj := {| obj_content_type := 3; obj_pk := Some 5 |}.
Definition unsaved : Obj := {| obj_content_type := 3; obj_pk := None |}.

Definition demo_state (c : gmap string (list string)) : State :=
  {| auth_permission := [view];
     auth_user := [alice; bob];
     user_object_permission := [];
     group_object_permission := [];
     cache := c;
     warnings := [] |}.

(** alice, a member of editors, has a cached list for the document; the
    group itself has none. *)
Definition member_cached_state : State :=
  demo_state {[ demo_key (UserIdentity 1) document := ["view"] ]}.

(** The same, with the permission already assigned to the group. *)
Definition member_cached_granted_state : State :=
  set_table GroupTable
    [{| row_id := 1; row_permission := view; row_subject := 10;
        row_content_type := 3; row_object_pk := 5 |}]
    member_cached_state.

(** ** Notions for the further properties *)

(** No cached list holds a codename twice. *)
Definition duplicate_free (c : gmap string (list string)) : Prop :=
  forall k l, c !! k = Some l -> NoDup l.

(** What the user manager has no business with: everything but its table
    and the cache.  Likewise for the group manager. *)
Definition beside_user_manager (st : State)
  : list Permission * list User * list Row * list (string * WarningCategory) :=
  (auth_permission st, auth_user st, group_object_permission st, warnings st).

Definition beside_group_manager (st : State)
  : list Permission * list User * list Row * list (string * WarningCategory) :=
  (auth_permission st, auth_user st, user_object_permission st, warnings st).

(** A user table that breaks the uniqueness constraint: the same assignment
    twice. *)
Definition duplicated_rows_state : State :=
  set_table UserTable
    [{| row_id := 1; row_permission := view; row_subject := 1;
        row_content_type := 3; row_object_pk := 5 |};
     {| row_id := 2; row_permission := view; row_subject := 1;
        row_content_type := 3; row_object_pk := 5 |}]
    member_cached_state.

(** A group table with rows of editors for two documents (5 and 6) of the
    content type 3, a row of editors for an object of another content type
    and a row of another group for the document 5. *)
Definition listing_state : State :=
  set_table GroupTable
    [{| row_id := 1; row_permission := view; row_subject := 10;
        row_content_type := 3; row_object_pk := 5 |};
     {| row_id := 2; row_permission := view; row_subject := 10;
        row_content_type := 3; row_object_pk := 6 |};
     {| row_id := 3;
        row_permission :=
          {| perm_id := 8; perm_content_type := 4; perm_codename := "view" |};
        row_subject := 10; row_content_type := 4; row_object_pk := 5 |};
     {| row_id := 4; row_permission := view; row_subject := 11;
        row_content_type := 3; row_object_pk := 5 |}]
    member_cached_state.

(** * Properties *)

(** ** Lists of codenames *)

Lemma contains_In perm l : contains perm l = true <-> In perm l.
Proof.
  unfold contains. rewrite existsb_exists. split.
  - intros (x & Hx & Heq). apply String.eqb_eq in Heq. now subst.
  - intros Hin. exists perm. split; [assumption | apply String.eqb_refl].
Qed.

Lemma contains_false perm l : contains perm l = false <-> ~ In perm l.
Proof.
  rewrite <- contains_In. destruct (contains perm l); split; congruence.
Qed.

Lemma pop_prefix (pre : list string) x post :
  pop (length pre) (pre ++ x :: post) = pre ++ post.
Proof.
  unfold pop. rewrite take_app_length.
  replace (S (length pre)) with (length (pre ++ [x])) by (rewrite length_app; simpl; lia).
  replace (pre ++ x :: post) with ((pre ++ [x]) ++ post) by (now rewrite <- app_assoc).
  now rewrite drop_app_length.
Qed.

(** The loop stops at the first occurrence and pops exactly that index. *)
Lemma pop_first_loop_split perm (l1 l2 pre : list string) :
  ~ In perm l1 ->
  pop_first_loop perm (l1 ++ perm :: l2) (length pre) (pre ++ l1 ++ perm :: l2)
  = pre ++ l1 ++ l2.
Proof.
  revert pre. induction l1 as [|x l1 IH]; intros pre Hnin; simpl.
  - rewrite String.eqb_refl. apply pop_prefix.
  - destruct (String.eqb perm x) eqn:E.
    + apply String.eqb_eq in E. subst. exfalso. apply Hnin. now left.
    + specialize (IH (pre ++ [x])).
      rewrite length_app in IH. simpl in IH.
      replace (length pre + 1)%nat with (S (length pre)) in IH by lia.
      rewrite <- !app_assoc in IH. simpl in IH. apply IH.
      intros Hin. apply Hnin. now right.
Qed.

Lemma pop_first_split perm (l1 l2 : list string) :
  ~ In perm l1 -> pop_first perm (l1 ++ perm :: l2) = l1 ++ l2.
Proof.
  intros Hnin. unfold pop_first.
  apply (pop_first_loop_split perm l1 l2 [] Hnin).
Qed.

Example pop_first_first_only :
  pop_first "view" ["edit"; "view"; "add"; "view"] = ["edit"; "add"; "view"].
Proof. reflexivity. Qed.

Lemma In_first_split perm (l : list string) :
  In perm l -> exists l1 l2, l = l1 ++ perm :: l2 /\ ~ In perm l1.
Proof.
  induction l as [|x l IH]; simpl; [tauto |].
  intros Hin. destruct (String.eqb perm x) eqn:E.
  - apply String.eqb_eq in E. subst x. exists [], l. simpl. tauto.
  - apply String.eqb_neq in E. destruct Hin as [-> | Hin]; [congruence |].
    destruct (IH Hin) as (l1 & l2 & -> & Hnin).
    exists (x :: l1), l2. split; [reflexivity |].
    simpl. intros [-> | H]; [congruence | tauto].
Qed.

(** ** States *)

Lemma set_table_same t st : set_table t (table t st) st = st.
Proof. destruct st, t; reflexivity. Qed.

Lemma set_cache_same st : set_cache (cache st) st = st.
Proof. destruct st; reflexivity. Qed.

Lemma cache_set_table t rows st : cache (set_table t rows st) = cache st.
Proof. destruct t; reflexivity. Qed.

(** ** Query sets *)

Lemma filter_ext_eq {A} (p q : A -> bool) (l : list A) :
  (forall x, p x = q x) -> List.filter p l = List.filter q l.
Proof.
  intros H. induction l as [|x l IH]; simpl; [reflexivity |].
  rewrite H, IH. reflexivity.
Qed.

Lemma filter_none {A} (p : A -> bool) (l : list A) :
  (forall x, In x l -> p x = false) -> List.filter p l = [].
Proof.
  induction l as [|x l IH]; simpl; intros H; [reflexivity |].
  rewrite (H x) by now left. apply IH. intros y Hy. apply H. now right.
Qed.

(** Under the uniqueness constraint a full key selects at most one row. *)
Lemma rows_for_unique s p ct pk rows :
  unique_together rows ->
  rows_for s p ct pk rows = [] \/ exists r, rows_for s p ct pk rows = [r].
Proof.
  unfold unique_together, rows_for.
  induction rows as [|x rows IH]; simpl; intros Hnd; [now left |].
  apply NoDup_cons in Hnd as [Hx Hnd].
  case_bool_decide as Hk.
  - right. exists x. f_equal. apply filter_none.
    intros y Hy. apply bool_decide_eq_false. intros Hy'.
    apply Hx. rewrite Hk, <- Hy'. apply list_elem_of_In, in_map, Hy.
  - now apply IH.
Qed.

Lemma rows_for_app s p ct pk rows rows' :
  rows_for s p ct pk (rows ++ rows')
  = rows_for s p ct pk rows ++ rows_for s p ct pk rows'.
Proof. apply List.filter_app. Qed.

(** A new row for a key that had none keeps the constraint. *)
Lemma unique_together_snoc rows r :
  unique_together rows ->
  rows_for (row_subject r) (row_permission r) (row_content_type r)
    (row_object_pk r) rows = [] ->
  unique_together (rows ++ [r]).
Proof.
  unfold unique_together. intros Hnd Hnone.
  rewrite map_app. simpl. apply NoDup_app. split; [assumption |].
  split; [| apply NoDup_singleton].
  intros k Hk Hk'. apply list_elem_of_singleton in Hk'. subst k.
  apply list_elem_of_In, in_map_iff in Hk as (y & Hy & Hin).
  assert (In y (rows_for (row_subject r) (row_permission r)
                  (row_content_type r) (row_object_pk r) rows)) as Hin'.
  { unfold rows_for. apply filter_In. split; [assumption |].
    apply bool_decide_eq_true. exact Hy. }
  rewrite Hnone in Hin'. destruct Hin'.
Qed.

Lemma unique_together_delete kwargs rows :
  unique_together rows -> unique_together (qs_delete kwargs rows).
Proof.
  unfold unique_together, qs_delete.
  induction rows as [|x rows IH]; simpl; intros Hnd; [assumption |].
  apply NoDup_cons in Hnd as [Hx Hnd].
  destruct (negb (matches kwargs x)); simpl; [| now apply IH].
  apply NoDup_cons. split; [| now apply IH].
  intros Hin. apply Hx.
  apply list_elem_of_In in Hin. apply list_elem_of_In.
  apply in_map_iff in Hin as (y & Hy & Hin). apply in_map_iff.
  exists y. split; [assumption |]. apply filter_In in Hin. tauto.
Qed.

(** Nothing that matches survives a filtered delete. *)
Lemma qs_filter_delete kwargs rows :
  qs_filter kwargs (qs_delete kwargs rows) = [].
Proof.
  unfold qs_filter, qs_delete. apply filter_none.
  intros r Hr. apply filter_In in Hr as [_ Hr].
  now apply negb_true_iff in Hr.
Qed.

(** A filtered delete that selects nothing leaves the table as it is. *)
Lemma qs_delete_none kwargs rows :
  qs_filter kwargs rows = [] -> qs_delete kwargs rows = rows.
Proof.
  unfold qs_filter, qs_delete.
  induction rows as [|x rows IH]; simpl; [reflexivity |].
  destruct (matches kwargs x); simpl; [discriminate |].
  intros H. f_equal. now apply IH.
Qed.

(** ** [get_or_create] and the filtered delete on the managers' keywords *)

Lemma matches_grant_kwargs self who s P obj pk r :
  obj_pk obj = Some pk ->
  subject_of who = Some s ->
  matches (grant_kwargs self who P obj pk) r
  = bool_decide (row_key r = (s, P, get_for_model obj, pk)).
Proof.
  intros Hpk Hwho. unfold grant_kwargs, row_key.
  destruct who; try discriminate; simpl in Hwho; injection Hwho as <-;
    destruct (BaseObjectPermissionManager.is_generic self); simpl;
    rewrite ?Hpk; repeat case_bool_decide; simplify_eq; try reflexivity;
    simpl; congruence.
Qed.

Lemma qs_filter_grant_kwargs self who s P obj pk rows :
  obj_pk obj = Some pk ->
  subject_of who = Some s ->
  qs_filter (grant_kwargs self who P obj pk) rows
  = rows_for s P (get_for_model obj) pk rows.
Proof.
  intros Hpk Hwho. unfold qs_filter, rows_for. apply filter_ext_eq.
  intros r. now apply matches_grant_kwargs.
Qed.

Lemma new_row_grant_kwargs self who s P obj pk rows :
  obj_pk obj = Some pk ->
  subject_of who = Some s ->
  new_row (grant_kwargs self who P obj pk) rows
  = Some {| row_id := next_id rows; row_permission := P; row_subject := s;
            row_content_type := get_for_model obj; row_object_pk := pk |}.
Proof.
  intros Hpk Hwho. unfold grant_kwargs, new_row.
  destruct who; try discriminate; simpl in Hwho; injection Hwho as <-;
    destruct (BaseObjectPermissionManager.is_generic self); simpl;
    rewrite ?Hpk; reflexivity.
Qed.

(** What [get_or_create] does on the keywords of [assign_perm]: it answers
    the one row there is for the key, or appends a fresh one. *)
Lemma get_or_create_grant t self who s P obj pk st :
  obj_pk obj = Some pk ->
  subject_of who = Some s ->
  unique_together (table t st) ->
  exists r created rows',
    get_or_create t (grant_kwargs self who P obj pk) st
    = (Return (r, created), set_table t rows' st)
    /\ rows_for s P (get_for_model obj) pk rows' = [r]
    /\ unique_together rows'
    /\ ((created = false /\ rows' = table t st)
        \/ (created = true
            /\ rows_for s P (get_for_model obj) pk (table t st) = []
            /\ rows' = table t st ++ [r])).
Proof.
  intros Hpk Hwho Hu.
  unfold get_or_create, bind, gets.
  rewrite (qs_filter_grant_kwargs _ _ s) by assumption.
  destruct (rows_for_unique s P (get_for_model obj) pk _ Hu) as [Hnone | [r Hone]].
  - rewrite Hnone, (new_row_grant_kwargs _ _ s) by assumption.
    eexists _, true, _. split; [reflexivity |].
    split; [| split].
    + rewrite rows_for_app, Hnone. unfold rows_for. simpl.
      rewrite bool_decide_eq_true_2 by reflexivity. reflexivity.
    + apply unique_together_snoc; assumption.
    + right. auto.
  - rewrite Hone. exists r, false, (table t st).
    rewrite set_table_same. split; [reflexivity |]. auto.
Qed.

Lemma matches_revoke_filters self who s perm obj pk r :
  subject_of who = Some s ->
  matches (revoke_filters self who perm obj pk) r
  = bool_decide (perm_codename (row_permission r) = perm)
    && bool_decide (perm_content_type (row_permission r) = get_for_model obj)
    && bool_decide (row_subject r = s)
    && bool_decide (row_object_pk r = pk).
Proof.
  intros Hwho. unfold revoke_filters.
  destruct who; try discriminate; simpl in Hwho; injection Hwho as <-;
    destruct (BaseObjectPermissionManager.is_generic self); simpl;
    rewrite !andb_true_r, !andb_assoc; reflexivity.
Qed.

(** [Permission.objects.get] reads the permission table and nothing else. *)
Lemma Permission_objects_get_found ctype perm st P :
  Permission_objects_get ctype perm st = (Return P, st) ->
  In P (auth_permission st)
  /\ perm_content_type P = ctype /\ perm_codename P = perm.
Proof.
  unfold Permission_objects_get, bind, gets.
  destruct (List.filter _ (auth_permission st)) as [|p [|q l]] eqn:E;
    simpl; intros H; try discriminate.
  injection H as ->.
  assert (In P [P]) as Hin by now left.
  rewrite <- E in Hin. apply filter_In in Hin as [Hin Hp].
  apply andb_true_iff in Hp as [H1 H2].
  apply bool_decide_eq_true in H1, H2. auto.
Qed.

Lemma Permission_objects_get_frame ctype perm st st' o :
  auth_permission st' = auth_permission st ->
  Permission_objects_get ctype perm st = (o, st) ->
  Permission_objects_get ctype perm st' = (o, st').
Proof.
  unfold Permission_objects_get, bind, gets. intros ->.
  destruct (List.filter _ (auth_permission st)) as [|p [|q l]];
    simpl; intros H; injection H as <-; reflexivity.
Qed.

(** ** The cache blocks *)

Lemma invalidate_lookup keys c k :
  invalidate keys c !! k = if bool_decide (k ∈ keys) then None else c !! k.
Proof.
  unfold invalidate. revert c.
  induction keys as [|x keys IH]; intros c; simpl; [reflexivity |].
  rewrite IH. destruct (decide (k = x)) as [-> | Hne].
  - rewrite lookup_delete_eq.
    rewrite (bool_decide_eq_true_2 (x ∈ x :: keys)) by apply list_elem_of_here.
    now case_bool_decide.
  - rewrite lookup_delete_ne by congruence.
    repeat case_bool_decide; try reflexivity.
    + exfalso. apply H0. now apply list_elem_of_further.
    + exfalso. apply elem_of_cons in H0 as [? | ?]; [congruence | tauto].
Qed.

Lemma invalidate_absent keys c k : k ∈ keys -> invalidate keys c !! k = None.
Proof.
  intros H. rewrite invalidate_lookup. now rewrite bool_decide_eq_true_2.
Qed.

Lemma invalidate_other keys c k : k ∉ keys -> invalidate keys c !! k = c !! k.
Proof.
  intros H. rewrite invalidate_lookup. now rewrite bool_decide_eq_false_2.
Qed.

(** The loop over the members deletes their keys and touches nothing else
    of the state. *)
Lemma for_each_cache_delete {A} (key_of : A -> string) (xs : list A) st :
  for_each xs (fun x => cache_delete (key_of x)) st
  = (Return tt, set_cache (invalidate (map key_of xs) (cache st)) st).
Proof.
  revert st. induction xs as [|x xs IH]; intros st; simpl.
  - unfold ret. now rewrite set_cache_same.
  - unfold bind, cache_delete, modify. rewrite IH. reflexivity.
Qed.

(** ** The managers, run *)

Section Runs.
Context `{!ObjectPermissionChecker}.

(** The two blocks that patch the subject's own cache entry. *)
Lemma add_to_cache_run {A} key perm (rest : M A) st :
  (cache_perms <- cache_get key ;;
   match cache_perms with
   | Some cache_perms =>
       if negb (contains perm cache_perms)
       then cache_set key (cache_perms ++ [perm])
       else ret tt
   | None => ret tt
   end ;;; rest) st
  = rest (set_cache (patch_on_grant key perm (cache st)) st).
Proof.
  unfold bind, cache_get, gets, patch_on_grant.
  destruct (cache st !! key) as [l|]; [destruct (contains perm l) |];
    simpl; unfold ret, cache_set, modify; rewrite ?set_cache_same;
    reflexivity.
Qed.

Lemma remove_for_cache_run {A} key perm (rest : M A) st :
  (cache_perms <- cache_get key ;;
   match cache_perms with
   | Some cache_perms =>
       if contains perm cache_perms
       then cache_set key (pop_first perm cache_perms)
       else ret tt
   | None => ret tt
   end ;;; rest) st
  = rest (set_cache (patch_on_revoke key perm (cache st)) st).
Proof.
  unfold bind, cache_get, gets, patch_on_revoke.
  destruct (cache st !! key) as [l|]; [destruct (contains perm l) |];
    simpl; unfold ret, cache_set, modify; rewrite ?set_cache_same;
    reflexivity.
Qed.

Lemma remove_for_cache_run_last key perm st :
  (cache_perms <- cache_get key ;;
   match cache_perms with
   | Some cache_perms =>
       if contains perm cache_perms
       then cache_set key (pop_first perm cache_perms)
       else ret tt
   | None => ret tt
   end) st
  = (Return tt, set_cache (patch_on_revoke key perm (cache st)) st).
Proof.
  unfold bind, cache_get, gets, patch_on_revoke.
  destruct (cache st !! key) as [l|]; [destruct (contains perm l) |];
    simpl; unfold ret, cache_set, modify; rewrite ?set_cache_same;
    reflexivity.
Qed.

(** The fan-out over the members of the group. *)
Lemma fan_out_run {A} group obj (rest : M A) st :
  (users <- User_objects_filter_groups group ;;
   for_each users (fun user =>
     let key := get_local_cache_key (UserIdentity (user_pk user)) obj in
     cache_delete key) ;;; rest) st
  = rest (set_cache (invalidate (member_keys group obj st) (cache st)) st).
Proof.
  unfold bind at 1. unfold User_objects_filter_groups, bind, gets, ret.
  fold (members group st).
  rewrite (for_each_cache_delete
             (fun user => get_local_cache_key (UserIdentity (user_pk user)) obj)).
  reflexivity.
Qed.

Lemma fan_out_run_last group obj st :
  (users <- User_objects_filter_groups group ;;
   for_each users (fun user =>
     let key := get_local_cache_key (UserIdentity (user_pk user)) obj in
     cache_delete key)) st
  = (Return tt,
     set_cache (invalidate (member_keys group obj st) (cache st)) st).
Proof.
  unfold bind at 1. unfold User_objects_filter_groups, bind, gets, ret.
  fold (members group st).
  apply (for_each_cache_delete
           (fun user => get_local_cache_key (UserIdentity (user_pk user)) obj)).
Qed.

Lemma member_keys_frame group obj st st' :
  auth_user st' = auth_user st ->
  member_keys group obj st' = member_keys group obj st.
Proof. unfold member_keys, members. now intros ->. Qed.

Lemma user_assign_perm_run self perm user obj pk P st :
  obj_pk obj = Some pk ->
  Permission_objects_get (get_for_model obj) perm st = (Return P, st) ->
  unique_together (user_object_permission st) ->
  exists r rows',
    UserObjectPermissionManager.assign_perm self perm user obj st
    = (Return r,
       set_cache (patch_on_grant (user_key user obj) perm (cache st))
         (set_table UserTable rows' st))
    /\ rows_for (user_pk user) P (get_for_model obj) pk rows' = [r]
    /\ unique_together rows'
    /\ (rows' = user_object_permission st
        \/ (rows_for (user_pk user) P (get_for_model obj) pk
              (user_object_permission st) = []
            /\ rows' = user_object_permission st ++ [r])).
Proof.
  intros Hpk HP Hu.
  destruct (get_or_create_grant UserTable self (kw_user user) (user_pk user)
              P obj pk st Hpk eq_refl Hu)
    as (r & created & rows' & Hrun & Hone & Hu' & Hrows).
  exists r, rows'. split; [| split; [assumption | split; [assumption |]]].
  - unfold UserObjectPermissionManager.assign_perm. rewrite Hpk.
    unfold bind at 1. rewrite HP.
    change (if BaseObjectPermissionManager.is_generic self
            then [kw_permission P; kw_user user] ++
                 [kw_content_type (get_for_model obj); kw_object_pk pk]
            else [kw_permission P; kw_user user] ++ [kw_content_object obj])
      with (grant_kwargs self (kw_user user) P obj pk).
    unfold bind at 1. rewrite Hrun.
    simpl fst. rewrite add_to_cache_run.
    unfold ret. rewrite cache_set_table. reflexivity.
  - destruct Hrows as [[_ ->] | (_ & Hnone & ->)]; [now left | right; auto].
Qed.

Lemma group_assign_perm_run self perm group obj pk P st :
  obj_pk obj = Some pk ->
  Permission_objects_get (get_for_model obj) perm st = (Return P, st) ->
  unique_together (group_object_permission st) ->
  exists r rows',
    GroupObjectPermissionManager.assign_perm self perm group obj st
    = (Return r,
       set_cache
         (invalidate (member_keys group obj st)
            (patch_on_grant (group_key group obj) perm (cache st)))
         (set_table GroupTable rows' st))
    /\ rows_for (group_pk group) P (get_for_model obj) pk rows' = [r]
    /\ unique_together rows'
    /\ (rows' = group_object_permission st
        \/ (rows_for (group_pk group) P (get_for_model obj) pk
              (group_object_permission st) = []
            /\ rows' = group_object_permission st ++ [r])).
Proof.
  intros Hpk HP Hu.
  destruct (get_or_create_grant GroupTable self (kw_group group)
              (group_pk group) P obj pk st Hpk eq_refl Hu)
    as (r & created & rows' & Hrun & Hone & Hu' & Hrows).
  exists r, rows'. split; [| split; [assumption | split; [assumption |]]].
  - unfold GroupObjectPermissionManager.assign_perm. rewrite Hpk.
    unfold bind at 1. rewrite HP.
    change (if BaseObjectPermissionManager.is_generic self
            then [kw_permission P; kw_group group] ++
                 [kw_content_type (get_for_model obj); kw_object_pk pk]
            else [kw_permission P; kw_group group] ++ [kw_content_object obj])
      with (grant_kwargs self (kw_group group) P obj pk).
    unfold bind at 1. rewrite Hrun.
    simpl fst. rewrite add_to_cache_run, fan_out_run.
    unfold ret. rewrite (member_keys_frame group obj _ st) by reflexivity.
    reflexivity.
  - destruct Hrows as [[_ ->] | (_ & Hnone & ->)]; [now left | right; auto].
Qed.

Lemma user_remove_perm_run self perm user obj pk st :
  obj_pk obj = Some pk ->
  UserObjectPermissionManager.remove_perm self perm user obj st
  = (Return tt,
     set_cache (patch_on_revoke (user_key user obj) perm (cache st))
       (set_table UserTable
          (qs_delete (revoke_filters self (kw_user user) perm obj pk)
             (user_object_permission st)) st)).
Proof.
  intros Hpk. unfold UserObjectPermissionManager.remove_perm. rewrite Hpk.
  change (if BaseObjectPermissionManager.is_generic self
          then [kw_permission__codename perm;
                kw_permission__content_type (get_for_model obj);
                kw_user user] ++ [kw_object_pk pk]
          else [kw_permission__codename perm;
                kw_permission__content_type (get_for_model obj);
                kw_user user] ++ [kw_content_object__pk pk])
    with (revoke_filters self (kw_user user) perm obj pk).
  unfold bind at 1. unfold objects_filter_delete, bind at 1, gets, modify.
  rewrite remove_for_cache_run_last. reflexivity.
Qed.

Lemma group_remove_perm_run self perm group obj pk st :
  obj_pk obj = Some pk ->
  GroupObjectPermissionManager.remove_perm self perm group obj st
  = (Return tt,
     set_cache
       (invalidate (member_keys group obj st)
          (patch_on_revoke (group_key group obj) perm (cache st)))
       (set_table GroupTable
          (qs_delete (revoke_filters self (kw_group group) perm obj pk)
             (group_object_permission st)) st)).
Proof.
  intros Hpk. unfold GroupObjectPermissionManager.remove_perm. rewrite Hpk.
  change (if BaseObjectPermissionManager.is_generic self
          then [kw_permission__codename perm;
                kw_permission__content_type (get_for_model obj);
                kw_group group] ++ [kw_object_pk pk]
          else [kw_permission__codename perm;
                kw_permission__content_type (get_for_model obj);
                kw_group group] ++ [kw_content_object__pk pk])
    with (revoke_filters self (kw_group group) perm obj pk).
  unfold bind at 1. unfold objects_filter_delete, bind at 1, gets, modify.
  rewrite remove_for_cache_run, fan_out_run_last. reflexivity.
Qed.

End Runs.

(** ** Grant and revoke on the cache *)

Section Grant.
Context `{!ObjectPermissionChecker}.

Lemma count_occ_snoc_fresh perm (l : list string) :
  ~ In perm l -> count_occ String.string_dec (l ++ [perm]) perm = 1%nat.
Proof.
  intros Hnin. rewrite count_occ_app.
  rewrite (proj1 (count_occ_not_In String.string_dec l perm) Hnin).
  simpl. destruct (String.string_dec perm perm); [reflexivity | congruence].
Qed.

Lemma patch_on_grant_fresh key perm l c :
  c !! key = Some l -> ~ In perm l ->
  patch_on_grant key perm c = <[key := l ++ [perm]]> c.
Proof.
  intros Hl Hnin. unfold patch_on_grant. rewrite Hl.
  now rewrite (proj2 (contains_false perm l) Hnin).
Qed.

Lemma patch_on_grant_absent key perm c :
  c !! key = None -> patch_on_grant key perm c = c.
Proof. intros Hl. unfold patch_on_grant. now rewrite Hl. Qed.

(** A second patch with the same codename finds it and changes nothing. *)
Lemma patch_on_grant_twice key perm c :
  patch_on_grant key perm (patch_on_grant key perm c)
  = patch_on_grant key perm c.
Proof.
  destruct (c !! key) as [l|] eqn:Hl; [destruct (contains perm l) eqn:Hc |].
  - assert (patch_on_grant key perm c = c) as E
        by (unfold patch_on_grant; now rewrite Hl, Hc).
    now rewrite !E.
  - assert (patch_on_grant key perm c = <[key := l ++ [perm]]> c) as E
        by (unfold patch_on_grant; now rewrite Hl, Hc).
    rewrite E. unfold patch_on_grant. rewrite lookup_insert_eq.
    assert (contains perm (l ++ [perm]) = true) as ->; [| reflexivity].
    apply contains_In, in_or_app. right. now left.
  - assert (patch_on_grant key perm c = c) as E
        by (unfold patch_on_grant; now rewrite Hl).
    now rewrite !E.
Qed.

(** C1: a user grant on a saved object with a known permission succeeds; if
    the cache entry of (user, object) is there and lacks the codename, the
    grant rewrites it with the codename appended, so that it holds the
    codename exactly once, and a second identical grant leaves that entry as
    it is; if the entry is absent the cache is left as it was. *)
Theorem user_grant_patches_cache self perm user obj pk P st :
  obj_pk obj = Some pk ->
  Permission_objects_get (get_for_model obj) perm st = (Return P, st) ->
  unique_together (user_object_permission st) ->
  exists r st1 st2,
    UserObjectPermissionManager.assign_perm self perm user obj st
    = (Return r, st1)
    /\ UserObjectPermissionManager.assign_perm self perm user obj st1
       = (Return r, st2)
    /\ (forall cache_perms,
          cache st !! user_key user obj = Some cache_perms ->
          ~ In perm cache_perms ->
          cache st1 = <[user_key user obj := cache_perms ++ [perm]]> (cache st)
          /\ count_occ String.string_dec (cache_perms ++ [perm]) perm = 1%nat
          /\ cache st2 = cache st1)
    /\ (cache st !! user_key user obj = None ->
        cache st1 = cache st /\ cache st2 = cache st).
Proof.
  intros Hpk HP Hu.
  destruct (user_assign_perm_run self perm user obj pk P st Hpk HP Hu)
    as (r & rows1 & Hrun1 & Hone1 & Hu1 & _).
  set (st1 := set_cache (patch_on_grant (user_key user obj) perm (cache st))
                (set_table UserTable rows1 st)) in *.
  assert (HP1 : Permission_objects_get (get_for_model obj) perm st1
                = (Return P, st1)).
  { apply (Permission_objects_get_frame _ _ st); [reflexivity | assumption]. }
  destruct (user_assign_perm_run self perm user obj pk P st1 Hpk HP1 Hu1)
    as (r2 & rows2 & Hrun2 & Hone2 & _ & Hrows2).
  assert (rows2 = rows1 /\ r2 = r) as [-> ->].
  { destruct Hrows2 as [-> | [Hnone _]].
    - split; [reflexivity |]. simpl in Hone2. congruence.
    - simpl in Hnone. congruence. }
  eexists r, st1, _. split; [exact Hrun1 | split; [exact Hrun2 |]].
  simpl. rewrite patch_on_grant_twice. split.
  - intros l Hl Hnin. rewrite (patch_on_grant_fresh _ _ l) by assumption.
    auto using count_occ_snoc_fresh.
  - intros Hl. now rewrite patch_on_grant_absent.
Qed.

End Grant.

Lemma user_grant_patches_cache_witness :
  exists r st1 st2,
    @UserObjectPermissionManager.assign_perm demo_checker generic_manager
      "view" alice document
      (demo_state {[ demo_key (UserIdentity 1) document := ["edit"] ]})
    = (Return r, st1)
    /\ @UserObjectPermissionManager.assign_perm demo_checker generic_manager
         "view" alice document st1
       = (Return r, st2)
    /\ cache st1 !! demo_key (UserIdentity 1) document = Some ["edit"; "view"]
    /\ cache st2 = cache st1.
Proof.
  destruct (@user_grant_patches_cache demo_checker generic_manager "view"
              alice document 5 view
              (demo_state {[ demo_key (UserIdentity 1) document := ["edit"] ]}))
    as (r & st1 & st2 & H1 & H2 & Hpresent & _).
  - reflexivity.
  - reflexivity.
  - apply NoDup_nil_2.
  - exists r, st1, st2. split; [exact H1 | split; [exact H2 |]].
    destruct (Hpresent ["edit"]) as (Hc & _ & Hc2).
    + vm_compute. reflexivity.
    + simpl. intros [H | []]. discriminate H.
    + split; [| exact Hc2]. rewrite Hc. vm_compute. reflexivity.
Defined.

Section Revoke.
Context `{!ObjectPermissionChecker}.

(** The loop of [remove_perm] drops the first occurrence and only that. *)
Lemma pop_first_removes_first perm (l : list string) :
  In perm l ->
  first_occurrence_removed perm l (pop_first perm l)
  /\ S (length (pop_first perm l)) = length l.
Proof.
  intros Hin. destruct (In_first_split perm l Hin) as (l1 & l2 & -> & Hnin).
  rewrite pop_first_split by assumption. split.
  - exists l1, l2. auto.
  - rewrite !length_app. simpl. lia.
Qed.

Lemma patch_on_revoke_patched perm key c :
  revoke_patched perm key c (patch_on_revoke key perm c).
Proof.
  unfold revoke_patched, patch_on_revoke. split.
  - intros l Hl Hin. rewrite Hl.
    rewrite (proj2 (contains_In perm l) Hin).
    exists (pop_first perm l).
    destruct (pop_first_removes_first perm l Hin). auto.
  - now intros ->.
Qed.

(** C2, amended: a revoke on a saved object succeeds.  For a user, if the
    cache entry of (user, object) is there and holds the codename, exactly
    its first occurrence is removed (the list is one shorter, whatever the
    number of occurrences) and the entry is rewritten; if the entry is
    absent the cache is left as it was.  For a group the same holds of the
    group's own entry in the cache as it stands before the fan-out: the
    final cache is that cache with the entries of the members deleted. *)
Theorem revoke_patches_cache self perm obj pk st :
  obj_pk obj = Some pk ->
  (forall user, exists st',
      UserObjectPermissionManager.remove_perm self perm user obj st
      = (Return tt, st')
      /\ revoke_patched perm (user_key user obj) (cache st) (cache st'))
  /\ (forall group, exists st' c,
        GroupObjectPermissionManager.remove_perm self perm group obj st
        = (Return tt, st')
        /\ revoke_patched perm (group_key group obj) (cache st) c
        /\ cache st' = invalidate (member_keys group obj st) c).
Proof.
  intros Hpk. split.
  - intros user. eexists. split; [apply (user_remove_perm_run _ _ _ _ pk _ Hpk) |].
    simpl. apply patch_on_revoke_patched.
  - intros group. eexists _, _. split; [apply (group_remove_perm_run _ _ _ _ pk _ Hpk) |].
    split; [apply patch_on_revoke_patched | reflexivity].
Qed.

End Revoke.

(** C2 as stated fails on a group: the entry of (editors, document) is
    absent, yet the revoke deletes the entry of the member alice. *)
Lemma group_revoke_absent_entry_touches_cache :
  obj_pk document = Some 5
  /\ cache member_cached_state !! @group_key demo_checker editors document
     = None
  /\ exists st',
      @GroupObjectPermissionManager.remove_perm demo_checker generic_manager
        "view" editors document member_cached_state
      = (Return tt, st')
      /\ cache member_cached_state !! demo_key (UserIdentity 1) document
         = Some ["view"]
      /\ cache st' !! demo_key (UserIdentity 1) document = None
      /\ cache st' <> cache member_cached_state.
Proof.
  split; [reflexivity |]. split; [vm_compute; reflexivity |].
  eexists. split; [vm_compute; reflexivity |].
  split; [vm_compute; reflexivity |]. split; [vm_compute; reflexivity |].
  intros Heq.
  apply (f_equal (fun c => c !! demo_key (UserIdentity 1) document)) in Heq.
  vm_compute in Heq. discriminate Heq.
Qed.

Lemma revoke_patches_cache_witness :
  obj_pk document = Some 5
  /\ exists st',
      @UserObjectPermissionManager.remove_perm demo_checker generic_manager
        "view" alice document
        (demo_state
           {[ demo_key (UserIdentity 1) document := ["view"; "edit"; "view"] ]})
      = (Return tt, st')
      /\ cache st' !! demo_key (UserIdentity 1) document
         = Some ["edit"; "view"].
Proof.
  split; [reflexivity |].
  destruct (@revoke_patches_cache demo_checker generic_manager "view" document
              5 (demo_state
                   {[ demo_key (UserIdentity 1) document
                      := ["view"; "edit"; "view"] ]}) eq_refl)
    as [Huser _].
  destruct (Huser alice) as (st' & Hrun & Hpatched & _).
  exists st'. split; [exact Hrun |].
  destruct (Hpatched ["view"; "edit"; "view"])
    as (l' & (l1 & l2 & Hsplit & Hnin & ->) & _ & ->).
  - vm_compute. reflexivity.
  - now left.
  - unfold user_key. simpl get_local_cache_key. rewrite lookup_insert_eq.
    destruct l1 as [|x l1]; simpl in Hsplit.
    + injection Hsplit as <-. reflexivity.
    + injection Hsplit as <- _. exfalso. apply Hnin. now left.
Defined.

(** ** The fan-out over the members of a group *)

Section FanOut.
Context `{!ObjectPermissionChecker}.

Lemma qs_filter_revoke_filters self who s perm obj pk rows :
  subject_of who = Some s ->
  qs_filter (revoke_filters self who perm obj pk) rows
  = revoked_rows perm (get_for_model obj) s pk rows.
Proof.
  intros Hwho. unfold qs_filter, revoked_rows. apply filter_ext_eq.
  intros r. now apply matches_revoke_filters.
Qed.

Lemma member_key_elem group obj st user :
  In user (members group st) -> user_key user obj ∈ member_keys group obj st.
Proof.
  intros Hin. unfold member_keys. apply list_elem_of_In.
  now apply (in_map (fun u => user_key u obj)).
Qed.

Lemma invalidate_members group obj st c user :
  In user (members group st) ->
  invalidate (member_keys group obj st) c !! user_key user obj = None.
Proof. intros Hin. now apply invalidate_absent, member_key_elem. Qed.

(** C3: a group grant and a group revoke on a saved object first update the
    group's own cache entry exactly as the user managers update the user's
    ([patch_on_grant], [patch_on_revoke]), then delete the entry of every
    member of the group for that object: when the call returns each member's
    entry is absent, and the group's own entry, if it was there without the
    codename and is not a member's entry, holds the codename. *)
Theorem group_fan_out self perm group obj pk st :
  obj_pk obj = Some pk ->
  (forall P,
      Permission_objects_get (get_for_model obj) perm st = (Return P, st) ->
      unique_together (group_object_permission st) ->
      exists r st',
        GroupObjectPermissionManager.assign_perm self perm group obj st
        = (Return r, st')
        /\ cache st'
           = invalidate (member_keys group obj st)
               (patch_on_grant (group_key group obj) perm (cache st))
        /\ (forall user, In user (members group st) ->
              cache st' !! user_key user obj = None)
        /\ (forall cache_perms,
              cache st !! group_key group obj = Some cache_perms ->
              ~ In perm cache_perms ->
              group_key group obj ∉ member_keys group obj st ->
              cache st' !! group_key group obj = Some (cache_perms ++ [perm])))
  /\ (exists st',
        GroupObjectPermissionManager.remove_perm self perm group obj st
        = (Return tt, st')
        /\ cache st'
           = invalidate (member_keys group obj st)
               (patch_on_revoke (group_key group obj) perm (cache st))
        /\ (forall user, In user (members group st) ->
              cache st' !! user_key user obj = None))
  /\ (forall user P,
        Permission_objects_get (get_for_model obj) perm st = (Return P, st) ->
        unique_together (user_object_permission st) ->
        exists r st',
          UserObjectPermissionManager.assign_perm self perm user obj st
          = (Return r, st')
          /\ cache st' = patch_on_grant (user_key user obj) perm (cache st))
  /\ (forall user, exists st',
        UserObjectPermissionManager.remove_perm self perm user obj st
        = (Return tt, st')
        /\ cache st' = patch_on_revoke (user_key user obj) perm (cache st)).
Proof.
  intros Hpk. repeat split.
  - intros P HP Hu.
    destruct (group_assign_perm_run self perm group obj pk P st Hpk HP Hu)
      as (r & rows' & Hrun & _).
    eexists r, _. split; [exact Hrun |]. simpl.
    split; [reflexivity |]. split.
    + intros user Hin. now apply invalidate_members.
    + intros l Hl Hnin Hkey. rewrite invalidate_other by assumption.
      rewrite (patch_on_grant_fresh _ _ l) by assumption.
      apply lookup_insert_eq.
  - eexists. split; [apply (group_remove_perm_run _ _ _ _ pk _ Hpk) |].
    simpl. split; [reflexivity |].
    intros user Hin. now apply invalidate_members.
  - intros user P HP Hu.
    destruct (user_assign_perm_run self perm user obj pk P st Hpk HP Hu)
      as (r & rows' & Hrun & _).
    eexists r, _. split; [exact Hrun | reflexivity].
  - intros user. eexists.
    split; [apply (user_remove_perm_run _ _ _ _ pk _ Hpk) | reflexivity].
Qed.

(** C10: the fan-out does not depend on what happened to the table or to
    the group's own entry.  Every group grant that passes the checks, and
    every group revoke on a saved object, leaves the entry of every member
    absent; also when the grant found the assignment in place, or the
    revoke matched no row, and the table is as it was; and when the group
    has no cache entry of its own the members' entries are all that
    changes in the cache. *)
Theorem group_fan_out_unconditional self perm group obj pk st :
  obj_pk obj = Some pk ->
  (forall P,
      Permission_objects_get (get_for_model obj) perm st = (Return P, st) ->
      unique_together (group_object_permission st) ->
      exists r st',
        GroupObjectPermissionManager.assign_perm self perm group obj st
        = (Return r, st')
        /\ (forall user, In user (members group st) ->
              cache st' !! user_key user obj = None)
        /\ (rows_for (group_pk group) P (get_for_model obj) pk
              (group_object_permission st) <> [] ->
            group_object_permission st' = group_object_permission st)
        /\ (cache st !! group_key group obj = None ->
            cache st' = invalidate (member_keys group obj st) (cache st)))
  /\ (exists st',
        GroupObjectPermissionManager.remove_perm self perm group obj st
        = (Return tt, st')
        /\ (forall user, In user (members group st) ->
              cache st' !! user_key user obj = None)
        /\ (revoked_rows perm (get_for_model obj) (group_pk group) pk
              (group_object_permission st) = [] ->
            group_object_permission st' = group_object_permission st)
        /\ (cache st !! group_key group obj = None ->
            cache st' = invalidate (member_keys group obj st) (cache st))).
Proof.
  intros Hpk. split.
  - intros P HP Hu.
    destruct (group_assign_perm_run self perm group obj pk P st Hpk HP Hu)
      as (r & rows' & Hrun & _ & _ & Hrows).
    eexists r, _. split; [exact Hrun |]. simpl. split; [| split].
    + intros user Hin. now apply invalidate_members.
    + intros Hsome. destruct Hrows as [-> | [Hnone _]];
        [reflexivity | contradiction].
    + intros Hnone. now rewrite patch_on_grant_absent.
  - eexists. split; [apply (group_remove_perm_run _ _ _ _ pk _ Hpk) |].
    simpl. split; [| split].
    + intros user Hin. now apply invalidate_members.
    + intros Hnone. apply qs_delete_none.
      now rewrite (qs_filter_revoke_filters _ _ (group_pk group)).
    + intros Hnone. unfold patch_on_revoke. now rewrite Hnone.
Qed.

End FanOut.

Lemma group_fan_out_witness :
  exists r st',
    @GroupObjectPermissionManager.assign_perm demo_checker generic_manager
      "view" editors document member_cached_state
    = (Return r, st')
    /\ In alice (members editors member_cached_state)
    /\ cache member_cached_state !! @user_key demo_checker alice document
       = Some ["view"]
    /\ cache st' !! @user_key demo_checker alice document = None.
Proof.
  destruct (@group_fan_out demo_checker generic_manager "view" editors
              document 5 member_cached_state eq_refl) as [Hgrant _].
  destruct (Hgrant view) as (r & st' & Hrun & _ & Hmembers & _).
  - reflexivity.
  - apply NoDup_nil_2.
  - exists r, st'. split; [exact Hrun |].
    split; [now left |]. split; [vm_compute; reflexivity |].
    apply Hmembers. now left.
Defined.

Lemma group_fan_out_unconditional_witness :
  exists r st',
    @GroupObjectPermissionManager.assign_perm demo_checker generic_manager
      "view" editors document member_cached_granted_state
    = (Return r, st')
    /\ group_object_permission st'
       = group_object_permission member_cached_granted_state
    /\ cache member_cached_granted_state
         !! @group_key demo_checker editors document = None
    /\ cache st' !! @user_key demo_checker alice document = None.
Proof.
  destruct (@group_fan_out_unconditional demo_checker generic_manager "view"
              editors document 5 member_cached_granted_state eq_refl)
    as [Hgrant _].
  destruct (Hgrant view) as (r & st' & Hrun & Hmembers & Hsame & _).
  - reflexivity.
  - apply NoDup_singleton.
  - exists r, st'. split; [exact Hrun |]. split; [| split].
    + apply Hsame. vm_compute. discriminate.
    + vm_compute. reflexivity.
    + apply Hmembers. now left.
Defined.

(** ** The assignment tables *)

Section Store.
Context `{!ObjectPermissionChecker}.

Lemma unique_together_NoDup rows : unique_together rows -> NoDup rows.
Proof. unfold unique_together. apply NoDup_fmap_1. Qed.

Lemma rows_for_In s p ct pk rows r :
  In r (rows_for s p ct pk rows) <-> In r rows /\ row_key r = (s, p, ct, pk).
Proof.
  unfold rows_for. rewrite filter_In. now rewrite bool_decide_eq_true.
Qed.

Lemma rows_of_type_In ct s rows r :
  In r (rows_of_type ct s rows)
  <-> In r rows /\ row_content_type r = ct /\ row_subject r = s.
Proof.
  unfold rows_of_type. rewrite filter_In, andb_true_iff.
  now rewrite !bool_decide_eq_true.
Qed.

Lemma revoked_rows_In perm ct s pk rows r :
  In r (revoked_rows perm ct s pk rows)
  <-> In r rows
      /\ perm_codename (row_permission r) = perm
      /\ perm_content_type (row_permission r) = ct
      /\ row_subject r = s /\ row_object_pk r = pk.
Proof.
  unfold revoked_rows. rewrite filter_In, !andb_true_iff.
  rewrite !bool_decide_eq_true. tauto.
Qed.

(** The assignment, once in the table, is listed exactly once. *)
Lemma listed_once s P ct pk rows r :
  unique_together rows ->
  rows_for s P ct pk rows = [r] ->
  count_occ Row_eq_dec (rows_of_type ct s rows) r = 1%nat.
Proof.
  intros Hu Hone.
  assert (In r (rows_for s P ct pk rows)) as Hin by (rewrite Hone; now left).
  apply rows_for_In in Hin as [Hin Hkey].
  unfold row_key in Hkey. injection Hkey as Hs HP Hct Hpk.
  apply NoDup_count_occ'.
  - unfold rows_of_type. apply List.NoDup_filter, NoDup_ListNoDup.
    now apply unique_together_NoDup.
  - apply rows_of_type_In. auto.
Qed.

(** After the filtered delete of a revoke nothing of the assignment is
    left. *)
Lemma revoke_leaves_none self who s perm P obj pk rows r :
  subject_of who = Some s ->
  perm_codename P = perm -> perm_content_type P = get_for_model obj ->
  row_key r = (s, P, get_for_model obj, pk) ->
  let rows' := qs_delete (revoke_filters self who perm obj pk) rows in
  revoked_rows perm (get_for_model obj) s pk rows' = []
  /\ rows_for s P (get_for_model obj) pk rows' = []
  /\ ~ In r rows'.
Proof.
  intros Hwho Hcode Hct Hkey rows'.
  assert (Hnone : revoked_rows perm (get_for_model obj) s pk rows' = []).
  { rewrite <- (qs_filter_revoke_filters self who) by assumption.
    apply qs_filter_delete. }
  assert (Hkeyed : forall x, In x rows' ->
                     row_key x = (s, P, get_for_model obj, pk) -> False).
  { intros x Hx Hk. unfold row_key in Hk. injection Hk as Hs HP _ Hpk.
    assert (In x (revoked_rows perm (get_for_model obj) s pk rows')) as Hin.
    { apply revoked_rows_In. rewrite HP. auto. }
    rewrite Hnone in Hin. destruct Hin. }
  split; [assumption | split].
  - unfold rows_for. apply filter_none. intros x Hx.
    apply bool_decide_eq_false. intros Hk. exact (Hkeyed x Hx Hk).
  - intros Hin. exact (Hkeyed r Hin Hkey).
Qed.

Lemma get_field_In self name :
  In name (model_fields self) ->
  exists f, BaseObjectPermissionManager.get_field self name = Some f.
Proof.
  intros Hin. unfold BaseObjectPermissionManager.get_field.
  destruct (List.find (String.eqb name) (model_fields self)) as [f|] eqn:E;
    [now exists f |].
  exfalso. apply (List.find_none _ _ E) in Hin.
  now rewrite String.eqb_refl in Hin.
Qed.

Lemma get_field_not_In self name :
  ~ In name (model_fields self) ->
  BaseObjectPermissionManager.get_field self name = None.
Proof.
  intros Hnin. unfold BaseObjectPermissionManager.get_field.
  destruct (List.find (String.eqb name) (model_fields self)) as [f|] eqn:E;
    [| reflexivity].
  exfalso. apply List.find_some in E as [Hin Heq].
  apply String.eqb_eq in Heq. subst f. contradiction.
Qed.

Lemma user_get_for_object_run self user obj pk st :
  obj_pk obj = Some pk ->
  In "content_type" (model_fields self) ->
  UserObjectPermissionManager.get_for_object self user obj st
  = (Return (rows_of_type (get_for_model obj) (user_pk user)
               (user_object_permission st)), st).
Proof.
  intros Hpk Hfield. unfold UserObjectPermissionManager.get_for_object.
  rewrite Hpk. unfold BaseObjectPermissionManager.filter_content_type.
  destruct (get_field_In self "content_type" Hfield) as [f ->].
  unfold bind, objects_filter, gets, ret. simpl.
  unfold qs_filter, rows_of_type. do 2 f_equal. apply filter_ext_eq.
  intros r. simpl. now rewrite andb_true_r.
Qed.

Lemma group_get_for_object_run self group obj pk st :
  obj_pk obj = Some pk ->
  In "content_type" (model_fields self) ->
  GroupObjectPermissionManager.get_for_object self group obj st
  = (Return (rows_of_type (get_for_model obj) (group_pk group)
               (group_object_permission st)), st).
Proof.
  intros Hpk Hfield. unfold GroupObjectPermissionManager.get_for_object.
  rewrite Hpk. unfold BaseObjectPermissionManager.filter_content_type.
  destruct (get_field_In self "content_type" Hfield) as [f ->].
  unfold bind, objects_filter, gets, ret. simpl.
  unfold qs_filter, rows_of_type. do 2 f_equal. apply filter_ext_eq.
  intros r. simpl. now rewrite andb_true_r.
Qed.

Lemma user_get_for_object_raises self user obj pk st :
  obj_pk obj = Some pk ->
  ~ In "content_type" (model_fields self) ->
  UserObjectPermissionManager.get_for_object self user obj st
  = (Raise FieldError, st).
Proof.
  intros Hpk Hfield. unfold UserObjectPermissionManager.get_for_object.
  rewrite Hpk. unfold BaseObjectPermissionManager.filter_content_type.
  now rewrite (get_field_not_In self "content_type" Hfield).
Qed.

Lemma group_get_for_object_raises self group obj pk st :
  obj_pk obj = Some pk ->
  ~ In "content_type" (model_fields self) ->
  GroupObjectPermissionManager.get_for_object self group obj st
  = (Raise FieldError, st).
Proof.
  intros Hpk Hfield. unfold GroupObjectPermissionManager.get_for_object.
  rewrite Hpk. unfold BaseObjectPermissionManager.filter_content_type.
  now rewrite (get_field_not_In self "content_type" Hfield).
Qed.

(** The managers keep the uniqueness constraint of their table. *)
Lemma managers_keep_unique_together self perm obj pk st :
  obj_pk obj = Some pk ->
  (forall user P,
      Permission_objects_get (get_for_model obj) perm st = (Return P, st) ->
      unique_together (user_object_permission st) ->
      unique_together
        (user_object_permission
           (snd (UserObjectPermissionManager.assign_perm self perm user obj st))))
  /\ (forall user,
        unique_together (user_object_permission st) ->
        unique_together
          (user_object_permission
             (snd (UserObjectPermissionManager.remove_perm self perm user obj
                     st))))
  /\ (forall group P,
        Permission_objects_get (get_for_model obj) perm st = (Return P, st) ->
        unique_together (group_object_permission st) ->
        unique_together
          (group_object_permission
             (snd (GroupObjectPermissionManager.assign_perm self perm group obj
                     st))))
  /\ (forall group,
        unique_together (group_object_permission st) ->
        unique_together
          (group_object_permission
             (snd (GroupObjectPermissionManager.remove_perm self perm group obj
                     st)))).
Proof.
  intros Hpk. repeat split.
  - intros user P HP Hu.
    destruct (user_assign_perm_run self perm user obj pk P st Hpk HP Hu)
      as (r & rows' & -> & _ & Hu' & _). exact Hu'.
  - intros user Hu. rewrite (user_remove_perm_run _ _ _ _ pk _ Hpk). simpl.
    now apply unique_together_delete.
  - intros group P HP Hu.
    destruct (group_assign_perm_run self perm group obj pk P st Hpk HP Hu)
      as (r & rows' & -> & _ & Hu' & _). exact Hu'.
  - intros group Hu. rewrite (group_remove_perm_run _ _ _ _ pk _ Hpk). simpl.
    now apply unique_together_delete.
Qed.

(** Two identical grants in a row, on the table. *)
Lemma user_grant_twice self perm user obj pk P st :
  obj_pk obj = Some pk ->
  Permission_objects_get (get_for_model obj) perm st = (Return P, st) ->
  unique_together (user_object_permission st) ->
  exists r st1 st2,
    UserObjectPermissionManager.assign_perm self perm user obj st
    = (Return r, st1)
    /\ UserObjectPermissionManager.assign_perm self perm user obj st1
       = (Return r, st2)
    /\ user_object_permission st2 = user_object_permission st1
    /\ rows_for (user_pk user) P (get_for_model obj) pk
         (user_object_permission st2) = [r]
    /\ unique_together (user_object_permission st2).
Proof.
  intros Hpk HP Hu.
  destruct (user_assign_perm_run self perm user obj pk P st Hpk HP Hu)
    as (r & rows1 & Hrun1 & Hone1 & Hu1 & _).
  set (st1 := set_cache (patch_on_grant (user_key user obj) perm (cache st))
                (set_table UserTable rows1 st)) in *.
  assert (HP1 : Permission_objects_get (get_for_model obj) perm st1
                = (Return P, st1)).
  { apply (Permission_objects_get_frame _ _ st); [reflexivity | assumption]. }
  destruct (user_assign_perm_run self perm user obj pk P st1 Hpk HP1 Hu1)
    as (r2 & rows2 & Hrun2 & Hone2 & _ & Hrows2).
  assert (rows2 = rows1 /\ r2 = r) as [-> ->].
  { destruct Hrows2 as [-> | [Hnone _]].
    - split; [reflexivity |]. simpl in Hone2. congruence.
    - simpl in Hnone. congruence. }
  eexists r, st1, _. split; [exact Hrun1 | split; [exact Hrun2 |]].
  split; [reflexivity |]. split; [exact Hone1 | exact Hu1].
Qed.

Lemma group_grant_twice self perm group obj pk P st :
  obj_pk obj = Some pk ->
  Permission_objects_get (get_for_model obj) perm st = (Return P, st) ->
  unique_together (group_object_permission st) ->
  exists r st1 st2,
    GroupObjectPermissionManager.assign_perm self perm group obj st
    = (Return r, st1)
    /\ GroupObjectPermissionManager.assign_perm self perm group obj st1
       = (Return r, st2)
    /\ group_object_permission st2 = group_object_permission st1
    /\ rows_for (group_pk group) P (get_for_model obj) pk
         (group_object_permission st2) = [r]
    /\ unique_together (group_object_permission st2).
Proof.
  intros Hpk HP Hu.
  destruct (group_assign_perm_run self perm group obj pk P st Hpk HP Hu)
    as (r & rows1 & Hrun1 & Hone1 & Hu1 & _).
  set (st1 := set_cache
                (invalidate (member_keys group obj st)
                   (patch_on_grant (group_key group obj) perm (cache st)))
                (set_table GroupTable rows1 st)) in *.
  assert (HP1 : Permission_objects_get (get_for_model obj) perm st1
                = (Return P, st1)).
  { apply (Permission_objects_get_frame _ _ st); [reflexivity | assumption]. }
  destruct (group_assign_perm_run self perm group obj pk P st1 Hpk HP1 Hu1)
    as (r2 & rows2 & Hrun2 & Hone2 & _ & Hrows2).
  assert (rows2 = rows1 /\ r2 = r) as [-> ->].
  { destruct Hrows2 as [-> | [Hnone _]].
    - split; [reflexivity |]. simpl in Hone2. congruence.
    - simpl in Hnone. congruence. }
  eexists r, st1, _. split; [exact Hrun1 | split; [exact Hrun2 |]].
  split; [reflexivity |]. split; [exact Hone1 | exact Hu1].
Qed.

(** C4, where the code falls short of it: on a model without a
    [content_type] field (a model with a foreign key [content_object], for
    which [assign_perm] and [remove_perm] branch on [is_generic]), two
    identical grants on a saved object with a known permission both succeed,
    answer the same record and leave exactly one row for (permission,
    subject, object); but [get_for_object], which does not branch, raises
    [FieldError] instead of listing that row.  For the user manager and for
    the group manager. *)
Theorem grant_twice_listing_raises_without_content_type self perm obj pk P st :
  obj_pk obj = Some pk ->
  Permission_objects_get (get_for_model obj) perm st = (Return P, st) ->
  ~ In "content_type" (model_fields self) ->
  (forall user,
      unique_together (user_object_permission st) ->
      exists r st1 st2,
        UserObjectPermissionManager.assign_perm self perm user obj st
        = (Return r, st1)
        /\ UserObjectPermissionManager.assign_perm self perm user obj st1
           = (Return r, st2)
        /\ rows_for (user_pk user) P (get_for_model obj) pk
             (user_object_permission st2) = [r]
        /\ UserObjectPermissionManager.get_for_object self user obj st2
           = (Raise FieldError, st2))
  /\ (forall group,
        unique_together (group_object_permission st) ->
        exists r st1 st2,
          GroupObjectPermissionManager.assign_perm self perm group obj st
          = (Return r, st1)
          /\ GroupObjectPermissionManager.assign_perm self perm group obj st1
             = (Return r, st2)
          /\ rows_for (group_pk group) P (get_for_model obj) pk
               (group_object_permission st2) = [r]
          /\ GroupObjectPermissionManager.get_for_object self group obj st2
             = (Raise FieldError, st2)).
Proof.
  intros Hpk HP Hfield. split.
  - intros user Hu.
    destruct (user_grant_twice self perm user obj pk P st Hpk HP Hu)
      as (r & st1 & st2 & H1 & H2 & _ & Hone & _).
    exists r, st1, st2. split; [exact H1 | split; [exact H2 |]].
    split; [exact Hone |]. now apply (user_get_for_object_raises _ _ _ pk).
  - intros group Hu.
    destruct (group_grant_twice self perm group obj pk P st Hpk HP Hu)
      as (r & st1 & st2 & H1 & H2 & _ & Hone & _).
    exists r, st1, st2. split; [exact H1 | split; [exact H2 |]].
    split; [exact Hone |]. now apply (group_get_for_object_raises _ _ _ pk).
Qed.

(** X14: on a saved object and with a known permission, two identical
    grants in a row both succeed and answer the same record; the second
    leaves the table as the first left it, with exactly one row for
    (permission, subject, object); and on a model with a [content_type]
    field [get_for_object] then lists that row once.  For the user manager
    and for the group manager. *)
Theorem grant_twice_leaves_one_row self perm obj pk P st :
  obj_pk obj = Some pk ->
  Permission_objects_get (get_for_model obj) perm st = (Return P, st) ->
  (forall user,
      unique_together (user_object_permission st) ->
      exists r st1 st2,
        UserObjectPermissionManager.assign_perm self perm user obj st
        = (Return r, st1)
        /\ UserObjectPermissionManager.assign_perm self perm user obj st1
           = (Return r, st2)
        /\ user_object_permission st2 = user_object_permission st1
        /\ rows_for (user_pk user) P (get_for_model obj) pk
             (user_object_permission st2) = [r]
        /\ (In "content_type" (model_fields self) ->
            exists perms,
              UserObjectPermissionManager.get_for_object self user obj st2
              = (Return perms, st2)
              /\ count_occ Row_eq_dec perms r = 1%nat))
  /\ (forall group,
        unique_together (group_object_permission st) ->
        exists r st1 st2,
          GroupObjectPermissionManager.assign_perm self perm group obj st
          = (Return r, st1)
          /\ GroupObjectPermissionManager.assign_perm self perm group obj st1
             = (Return r, st2)
          /\ group_object_permission st2 = group_object_permission st1
          /\ rows_for (group_pk group) P (get_for_model obj) pk
               (group_object_permission st2) = [r]
          /\ (In "content_type" (model_fields self) ->
              exists perms,
                GroupObjectPermissionManager.get_for_object self group obj st2
                = (Return perms, st2)
                /\ count_occ Row_eq_dec perms r = 1%nat)).
Proof.
  intros Hpk HP. split.
  - intros user Hu.
    destruct (user_grant_twice self perm user obj pk P st Hpk HP Hu)
      as (r & st1 & st2 & H1 & H2 & Hsame & Hone & Hu2).
    exists r, st1, st2. split; [exact H1 | split; [exact H2 |]].
    split; [exact Hsame |]. split; [exact Hone |].
    intros Hfield. eexists.
    split; [apply (user_get_for_object_run _ _ _ pk _ Hpk Hfield) |].
    now apply (listed_once _ P _ pk).
  - intros group Hu.
    destruct (group_grant_twice self perm group obj pk P st Hpk HP Hu)
      as (r & st1 & st2 & H1 & H2 & Hsame & Hone & Hu2).
    exists r, st1, st2. split; [exact H1 | split; [exact H2 |]].
    split; [exact Hsame |]. split; [exact Hone |].
    intros Hfield. eexists.
    split; [apply (group_get_for_object_run _ _ _ pk _ Hpk Hfield) |].
    now apply (listed_once _ P _ pk).
Qed.

(** C5: on a saved object and with a known permission, a grant followed at
    once by the revoke of the same (permission, subject, object) leaves no
    row that matches the codename, the content type of the permission, the
    subject and the object key; the row the grant answered is gone.  For the
    user manager and for the group manager. *)
Theorem grant_then_revoke self perm obj pk P st :
  obj_pk obj = Some pk ->
  Permission_objects_get (get_for_model obj) perm st = (Return P, st) ->
  (forall user,
      unique_together (user_object_permission st) ->
      exists r st1 st2,
        UserObjectPermissionManager.assign_perm self perm user obj st
        = (Return r, st1)
        /\ In r (user_object_permission st1)
        /\ UserObjectPermissionManager.remove_perm self perm user obj st1
           = (Return tt, st2)
        /\ revoked_rows perm (get_for_model obj) (user_pk user) pk
             (user_object_permission st2) = []
        /\ rows_for (user_pk user) P (get_for_model obj) pk
             (user_object_permission st2) = []
        /\ ~ In r (user_object_permission st2))
  /\ (forall group,
        unique_together (group_object_permission st) ->
        exists r st1 st2,
          GroupObjectPermissionManager.assign_perm self perm group obj st
          = (Return r, st1)
          /\ In r (group_object_permission st1)
          /\ GroupObjectPermissionManager.remove_perm self perm group obj st1
             = (Return tt, st2)
          /\ revoked_rows perm (get_for_model obj) (group_pk group) pk
               (group_object_permission st2) = []
          /\ rows_for (group_pk group) P (get_for_model obj) pk
               (group_object_permission st2) = []
          /\ ~ In r (group_object_permission st2)).
Proof.
  intros Hpk HP.
  destruct (Permission_objects_get_found _ _ _ _ HP) as (_ & Hct & Hcode).
  split.
  - intros user Hu.
    destruct (user_assign_perm_run self perm user obj pk P st Hpk HP Hu)
      as (r & rows1 & Hrun1 & Hone1 & _).
    assert (In r (rows_for (user_pk user) P (get_for_model obj) pk rows1))
      as Hin by (rewrite Hone1; now left).
    apply rows_for_In in Hin as [Hin Hkey].
    eexists r, _, _. split; [exact Hrun1 |]. split; [exact Hin |].
    split; [apply (user_remove_perm_run _ _ _ _ pk _ Hpk) |].
    simpl.
    exact (revoke_leaves_none self (kw_user user) (user_pk user) perm P obj pk
             rows1 r eq_refl Hcode Hct Hkey).
  - intros group Hu.
    destruct (group_assign_perm_run self perm group obj pk P st Hpk HP Hu)
      as (r & rows1 & Hrun1 & Hone1 & _).
    assert (In r (rows_for (group_pk group) P (get_for_model obj) pk rows1))
      as Hin by (rewrite Hone1; now left).
    apply rows_for_In in Hin as [Hin Hkey].
    eexists r, _, _. split; [exact Hrun1 |]. split; [exact Hin |].
    split; [apply (group_remove_perm_run _ _ _ _ pk _ Hpk) |].
    simpl.
    exact (revoke_leaves_none self (kw_group group) (group_pk group) perm P
             obj pk rows1 r eq_refl Hcode Hct Hkey).
Qed.

End Store.

Lemma grant_twice_listing_raises_without_content_type_witness :
  ~ In "content_type" (model_fields direct_manager)
  /\ exists r st1 st2,
       @UserObjectPermissionManager.assign_perm demo_checker direct_manager
         "view" alice document (demo_state ∅)
       = (Return r, st1)
       /\ @UserObjectPermissionManager.assign_perm demo_checker direct_manager
            "view" alice document st1
          = (Return r, st2)
       /\ rows_for 1 view 3 5 (user_object_permission st2) = [r]
       /\ UserObjectPermissionManager.get_for_object direct_manager alice
            document st2
          = (Raise FieldError, st2).
Proof.
  assert (Hfield : ~ In "content_type" (model_fields direct_manager))
    by (simpl; intros [H | [H | [H | []]]]; discriminate H).
  split; [exact Hfield |].
  destruct (@grant_twice_listing_raises_without_content_type demo_checker
              direct_manager "view" document 5 view (demo_state ∅) eq_refl
              eq_refl Hfield) as [Huser _].
  apply (Huser alice). apply NoDup_nil_2.
Defined.

Lemma grant_twice_leaves_one_row_witness :
  exists r st1 st2 perms,
    @UserObjectPermissionManager.assign_perm demo_checker generic_manager
      "view" alice document (demo_state ∅)
    = (Return r, st1)
    /\ @UserObjectPermissionManager.assign_perm demo_checker generic_manager
         "view" alice document st1
       = (Return r, st2)
    /\ rows_for 1 view 3 5 (user_object_permission st2) = [r]
    /\ UserObjectPermissionManager.get_for_object generic_manager alice
         document st2
       = (Return perms, st2)
    /\ count_occ Row_eq_dec perms r = 1%nat.
Proof.
  destruct (@grant_twice_leaves_one_row demo_checker generic_manager "view"
              document 5 view (demo_state ∅) eq_refl eq_refl) as [Huser _].
  destruct (Huser alice) as (r & st1 & st2 & H1 & H2 & _ & H3 & Hlist).
  - apply NoDup_nil_2.
  - destruct Hlist as (perms & H4 & H5).
    + simpl. auto.
    + exists r, st1, st2, perms. auto.
Defined.

Lemma grant_then_revoke_witness :
  exists r st1 st2,
    @GroupObjectPermissionManager.assign_perm demo_checker generic_manager
      "view" editors document member_cached_granted_state
    = (Return r, st1)
    /\ In r (group_object_permission st1)
    /\ @GroupObjectPermissionManager.remove_perm demo_checker generic_manager
         "view" editors document st1
       = (Return tt, st2)
    /\ revoked_rows "view" 3 10 5 (group_object_permission st2) = []
    /\ ~ In r (group_object_permission st2).
Proof.
  destruct (@grant_then_revoke demo_checker generic_manager "view" document 5
              view member_cached_granted_state eq_refl eq_refl) as [_ Hgroup].
  destruct (Hgroup editors) as (r & st1 & st2 & H1 & H2 & H3 & H4 & _ & H5).
  - apply NoDup_singleton.
  - exists r, st1, st2. auto.
Defined.

(** ** Rejections *)

Section Rejections.
Context `{!ObjectPermissionChecker}.

(** C6: on an object without a primary key, [assign_perm], [remove_perm]
    and [get_for_object] of both managers raise [ObjectNotPersisted] and
    hand back the state they were given: the tables and the cache are as
    they were. *)
Theorem unsaved_object_rejected self perm user group obj st :
  obj_pk obj = None ->
  UserObjectPermissionManager.assign_perm self perm user obj st
  = (Raise ObjectNotPersisted, st)
  /\ UserObjectPermissionManager.remove_perm self perm user obj st
     = (Raise ObjectNotPersisted, st)
  /\ UserObjectPermissionManager.get_for_object self user obj st
     = (Raise ObjectNotPersisted, st)
  /\ GroupObjectPermissionManager.assign_perm self perm group obj st
     = (Raise ObjectNotPersisted, st)
  /\ GroupObjectPermissionManager.remove_perm self perm group obj st
     = (Raise ObjectNotPersisted, st)
  /\ GroupObjectPermissionManager.get_for_object self group obj st
     = (Raise ObjectNotPersisted, st).
Proof.
  intros Hpk.
  unfold UserObjectPermissionManager.assign_perm,
    UserObjectPermissionManager.remove_perm,
    UserObjectPermissionManager.get_for_object,
    GroupObjectPermissionManager.assign_perm,
    GroupObjectPermissionManager.remove_perm,
    GroupObjectPermissionManager.get_for_object.
  rewrite Hpk. repeat split; reflexivity.
Qed.

Lemma Permission_objects_get_unknown ctype perm st :
  (forall p, In p (auth_permission st) ->
     perm_content_type p = ctype -> perm_codename p <> perm) ->
  Permission_objects_get ctype perm st = (Raise DoesNotExist, st).
Proof.
  intros Hnone. unfold Permission_objects_get, bind, gets.
  rewrite filter_none; [reflexivity |].
  intros p Hp. apply andb_false_iff.
  destruct (decide (perm_content_type p = ctype)) as [Hct | Hct].
  - right. apply bool_decide_eq_false. now apply Hnone.
  - left. now apply bool_decide_eq_false.
Qed.

(** C7: on a saved object, when no row of the permission table has the
    content type of the object and the codename, [assign_perm] of both
    managers raises [DoesNotExist] and hands back the state it was given:
    no row is created and the cache is not touched. *)
Theorem unknown_permission_rejected self perm user group obj pk st :
  obj_pk obj = Some pk ->
  (forall p, In p (auth_permission st) ->
     perm_content_type p = get_for_model obj -> perm_codename p <> perm) ->
  UserObjectPermissionManager.assign_perm self perm user obj st
  = (Raise DoesNotExist, st)
  /\ GroupObjectPermissionManager.assign_perm self perm group obj st
     = (Raise DoesNotExist, st).
Proof.
  intros Hpk Hnone.
  unfold UserObjectPermissionManager.assign_perm,
    GroupObjectPermissionManager.assign_perm.
  rewrite Hpk.
  split; unfold bind at 1;
    rewrite Permission_objects_get_unknown by assumption; reflexivity.
Qed.

(** C8, where the code falls short of it: on a model without a
    [content_type] field (a model with a foreign key [content_object], for
    which [assign_perm] and [remove_perm] branch on [is_generic]),
    [get_for_object] on a saved object lists nothing: it raises
    [FieldError], in every state, and hands back the state it was given. *)
Theorem get_for_object_raises_without_content_type self obj pk st :
  obj_pk obj = Some pk ->
  ~ In "content_type" (model_fields self) ->
  (forall user,
      UserObjectPermissionManager.get_for_object self user obj st
      = (Raise FieldError, st))
  /\ (forall group,
        GroupObjectPermissionManager.get_for_object self group obj st
        = (Raise FieldError, st)).
Proof.
  intros Hpk Hfield. split.
  - intros user. now apply (user_get_for_object_raises _ _ _ pk).
  - intros group. now apply (group_get_for_object_raises _ _ _ pk).
Qed.

(** X15: on a saved object and a model with a [content_type] field,
    [get_for_object] answers the rows of the table that have the subject
    and the content type of the object, whatever object of that type they
    are for, and hands back the state it was given; the cache has no part
    in the answer. *)
Theorem get_for_object_lists_rows_of_type self obj pk st :
  obj_pk obj = Some pk ->
  In "content_type" (model_fields self) ->
  (forall user,
      UserObjectPermissionManager.get_for_object self user obj st
      = (Return (rows_of_type (get_for_model obj) (user_pk user)
                   (user_object_permission st)), st)
      /\ (forall obj' pk',
            obj_pk obj' = Some pk' -> get_for_model obj' = get_for_model obj ->
            UserObjectPermissionManager.get_for_object self user obj' st
            = UserObjectPermissionManager.get_for_object self user obj st)
      /\ (forall c,
            fst (UserObjectPermissionManager.get_for_object self user obj
                   (set_cache c st))
            = fst (UserObjectPermissionManager.get_for_object self user obj st)))
  /\ (forall group,
        GroupObjectPermissionManager.get_for_object self group obj st
        = (Return (rows_of_type (get_for_model obj) (group_pk group)
                     (group_object_permission st)), st)
        /\ (forall obj' pk',
              obj_pk obj' = Some pk' -> get_for_model obj' = get_for_model obj ->
              GroupObjectPermissionManager.get_for_object self group obj' st
              = GroupObjectPermissionManager.get_for_object self group obj st)
        /\ (forall c,
              fst (GroupObjectPermissionManager.get_for_object self group obj
                     (set_cache c st))
              = fst (GroupObjectPermissionManager.get_for_object self group
                       obj st))).
Proof.
  intros Hpk Hfield. split.
  - intros user. split; [| split].
    + now apply (user_get_for_object_run _ _ _ pk).
    + intros obj' pk' Hpk' Hct.
      rewrite (user_get_for_object_run _ _ obj' pk') by assumption.
      rewrite (user_get_for_object_run _ _ obj pk) by assumption.
      now rewrite Hct.
    + intros c. now rewrite !(user_get_for_object_run _ _ obj pk).
  - intros group. split; [| split].
    + now apply (group_get_for_object_run _ _ _ pk).
    + intros obj' pk' Hpk' Hct.
      rewrite (group_get_for_object_run _ _ obj' pk') by assumption.
      rewrite (group_get_for_object_run _ _ obj pk) by assumption.
      now rewrite Hct.
    + intros c. now rewrite !(group_get_for_object_run _ _ obj pk).
Qed.

End Rejections.

Lemma unsaved_object_rejected_witness :
  obj_pk unsaved = None
  /\ @GroupObjectPermissionManager.assign_perm demo_checker generic_manager
       "view" editors unsaved member_cached_state
     = (Raise ObjectNotPersisted, member_cached_state).
Proof.
  split; [reflexivity |].
  apply (@unsaved_object_rejected demo_checker generic_manager "view" alice
           editors unsaved member_cached_state eq_refl).
Defined.

Lemma unknown_permission_rejected_witness :
  @UserObjectPermissionManager.assign_perm demo_checker generic_manager
    "nonexistent" alice document member_cached_state
  = (Raise DoesNotExist, member_cached_state).
Proof.
  apply (@unknown_permission_rejected demo_checker generic_manager
           "nonexistent" alice editors document 5 member_cached_state eq_refl).
  simpl. intros p [<- | []] _. discriminate.
Defined.

Lemma get_for_object_raises_without_content_type_witness :
  ~ In "content_type" (model_fields direct_manager)
  /\ GroupObjectPermissionManager.get_for_object direct_manager editors
       document member_cached_granted_state
     = (Raise FieldError, member_cached_granted_state).
Proof.
  assert (Hfield : ~ In "content_type" (model_fields direct_manager))
    by (simpl; intros [H | [H | [H | []]]]; discriminate H).
  split; [exact Hfield |].
  apply (get_for_object_raises_without_content_type direct_manager document 5
           member_cached_granted_state eq_refl Hfield).
Defined.

Lemma get_for_object_lists_rows_of_type_witness :
  GroupObjectPermissionManager.get_for_object generic_manager editors document
    listing_state
  = (Return
       [{| row_id := 1; row_permission := view; row_subject := 10;
           row_content_type := 3; row_object_pk := 5 |};
        {| row_id := 2; row_permission := view; row_subject := 10;
           row_content_type := 3; row_object_pk := 6 |}],
     listing_state).
Proof.
  apply (get_for_object_lists_rows_of_type generic_manager document 5
           listing_state eq_refl).
  simpl. auto.
Defined.

(** ** The deprecated alias *)

Lemma ignores_ret {A} (a : A) : ignores_warnings (ret a).
Proof. intros w st. reflexivity. Qed.

Lemma ignores_raise {A} e : ignores_warnings (@raise A e).
Proof. intros w st. reflexivity. Qed.

Lemma ignores_bind {A B} (m : M A) (k : A -> M B) :
  ignores_warnings m -> (forall a, ignores_warnings (k a)) ->
  ignores_warnings (bind m k).
Proof.
  intros Hm Hk w st. unfold bind. rewrite Hm.
  destruct (m st) as [[a | e] st']; simpl; [apply Hk | reflexivity].
Qed.

Lemma ignores_gets {A} (f : State -> A) :
  (forall w st, f (set_warnings w st) = f st) -> ignores_warnings (gets f).
Proof. intros Hf w st. unfold gets. simpl. now rewrite Hf. Qed.

Lemma ignores_modify (g : State -> State) :
  (forall w st, g (set_warnings w st) = set_warnings w (g st)) ->
  ignores_warnings (modify g).
Proof. intros Hg w st. unfold modify. simpl. now rewrite Hg. Qed.

Lemma ignores_for_each {A} (xs : list A) (body : A -> M unit) :
  (forall x, ignores_warnings (body x)) ->
  ignores_warnings (for_each xs body).
Proof.
  intros Hbody. induction xs as [|x xs IH]; simpl.
  - apply ignores_ret.
  - apply ignores_bind; [apply Hbody | intros _; exact IH].
Qed.

Lemma table_set_warnings t w st : table t (set_warnings w st) = table t st.
Proof. destruct t; reflexivity. Qed.

Lemma set_table_set_warnings t rows w st :
  set_table t rows (set_warnings w st) = set_warnings w (set_table t rows st).
Proof. destruct t; reflexivity. Qed.

Ltac ignores :=
  repeat first
    [ apply ignores_ret
    | apply ignores_raise
    | apply ignores_bind; [| intros ?]
    | apply ignores_for_each; intros ?
    | apply ignores_gets; intros ? ?;
        solve [ reflexivity | apply table_set_warnings ]
    | apply ignores_modify; intros ? ?;
        solve [ reflexivity | apply set_table_set_warnings ]
    | match goal with
      | |- ignores_warnings (match ?x with _ => _ end) => destruct x
      end ].

Lemma ignores_get_or_create t kwargs :
  ignores_warnings (get_or_create t kwargs).
Proof. unfold get_or_create. ignores. Qed.

Lemma ignores_Permission_objects_get ctype perm :
  ignores_warnings (Permission_objects_get ctype perm).
Proof. unfold Permission_objects_get. ignores. Qed.

Lemma ignores_user_assign_perm `{!ObjectPermissionChecker} self perm user obj :
  ignores_warnings (UserObjectPermissionManager.assign_perm self perm user obj).
Proof.
  unfold UserObjectPermissionManager.assign_perm.
  destruct (obj_pk obj); [| apply ignores_raise].
  apply ignores_bind; [apply ignores_Permission_objects_get | intros P].
  apply ignores_bind; [apply ignores_get_or_create | intros created].
  unfold cache_get, cache_set. ignores.
Qed.

Lemma ignores_group_assign_perm `{!ObjectPermissionChecker} self perm group obj :
  ignores_warnings
    (GroupObjectPermissionManager.assign_perm self perm group obj).
Proof.
  unfold GroupObjectPermissionManager.assign_perm.
  destruct (obj_pk obj); [| apply ignores_raise].
  apply ignores_bind; [apply ignores_Permission_objects_get | intros P].
  apply ignores_bind; [apply ignores_get_or_create | intros created].
  unfold cache_get, cache_set, cache_delete, User_objects_filter_groups.
  ignores.
Qed.

Lemma ignores_keeps_warnings {A} (m : M A) st :
  ignores_warnings m -> warnings (snd (m st)) = warnings st.
Proof.
  intros Hm. specialize (Hm (warnings st) st).
  replace (set_warnings (warnings st) st) with st in Hm
    by (destruct st; reflexivity).
  rewrite Hm at 1. reflexivity.
Qed.

(** C9: on every input and in every state, the deprecated [assign] of each
    manager has the outcome of [assign_perm] in that state and leaves the
    state [assign_perm] leaves (tables, cache and all), but for one more
    emitted warning, of category [DeprecationWarning]; [assign_perm] itself
    emits none. *)
Theorem assign_is_assign_perm `{!ObjectPermissionChecker}
    self perm user group obj st :
  (exists message,
      UserObjectPermissionManager.assign self perm user obj st
      = (fst (UserObjectPermissionManager.assign_perm self perm user obj st),
         set_warnings (warnings st ++ [(message, DeprecationWarning)])
           (snd (UserObjectPermissionManager.assign_perm self perm user obj st)))
      /\ warnings
           (snd (UserObjectPermissionManager.assign_perm self perm user obj st))
         = warnings st)
  /\ (exists message,
        GroupObjectPermissionManager.assign self perm group obj st
        = (fst (GroupObjectPermissionManager.assign_perm self perm group obj st),
           set_warnings (warnings st ++ [(message, DeprecationWarning)])
             (snd (GroupObjectPermissionManager.assign_perm self perm group
                     obj st)))
        /\ warnings
             (snd (GroupObjectPermissionManager.assign_perm self perm group
                     obj st))
           = warnings st).
Proof.
  split; eexists; (split;
    [| apply ignores_keeps_warnings;
       first [apply ignores_user_assign_perm | apply ignores_group_assign_perm]]).
  - unfold UserObjectPermissionManager.assign, bind, warn, modify.
    apply ignores_user_assign_perm.
  - unfold GroupObjectPermissionManager.assign, bind, warn, modify.
    apply ignores_group_assign_perm.
Qed.

(** * Further properties of the managers *)

(** ** Every way a grant can end *)

Lemma Permission_objects_get_keeps ctype perm st :
  snd (Permission_objects_get ctype perm st) = st.
Proof.
  unfold Permission_objects_get, bind, gets.
  destruct (List.filter _ (auth_permission st)) as [|p [|q l]]; reflexivity.
Qed.

Lemma get_or_create_cases t kwargs st :
  (exists e, get_or_create t kwargs st = (Raise e, st))
  \/ (exists r,
        get_or_create t kwargs st = (Return (r, false), st)
        /\ qs_filter kwargs (table t st) = [r])
  \/ (exists r,
        get_or_create t kwargs st
        = (Return (r, true), set_table t (table t st ++ [r]) st)
        /\ qs_filter kwargs (table t st) = []
        /\ new_row kwargs (table t st) = Some r).
Proof.
  unfold get_or_create, bind, gets.
  destruct (qs_filter kwargs (table t st)) as [|r [|r' l]] eqn:E.
  - destruct (new_row kwargs (table t st)) as [r|] eqn:Enew.
    + right. right. exists r. auto.
    + left. exists IntegrityError. reflexivity.
  - right. left. exists r. auto.
  - left. exists MultipleObjectsReturned. reflexivity.
Qed.

(** [get_or_create] on the keywords of [assign_perm], whatever the table
    holds. *)
Lemma get_or_create_grant_cases t self who s P obj pk st :
  obj_pk obj = Some pk ->
  subject_of who = Some s ->
  (exists e, get_or_create t (grant_kwargs self who P obj pk) st = (Raise e, st))
  \/ (exists r created rows',
        get_or_create t (grant_kwargs self who P obj pk) st
        = (Return (r, created), set_table t rows' st)
        /\ ((rows' = table t st
             /\ rows_for s P (get_for_model obj) pk (table t st) = [r])
            \/ (rows' = table t st ++ [r]
                /\ rows_for s P (get_for_model obj) pk (table t st) = []
                /\ r = {| row_id := next_id (table t st);
                          row_permission := P; row_subject := s;
                          row_content_type := get_for_model obj;
                          row_object_pk := pk |}))).
Proof.
  intros Hpk Hwho.
  destruct (get_or_create_cases t (grant_kwargs self who P obj pk) st)
    as [He | [(r & Hrun & Hone) | (r & Hrun & Hnone & Hnew)]].
  - now left.
  - right. exists r, false, (table t st). rewrite set_table_same.
    split; [assumption | left].
    rewrite (qs_filter_grant_kwargs _ _ s) in Hone by assumption. auto.
  - right. exists r, true, (table t st ++ [r]). split; [assumption | right].
    rewrite (qs_filter_grant_kwargs _ _ s) in Hnone by assumption.
    rewrite (new_row_grant_kwargs _ _ s) in Hnew by assumption.
    injection Hnew as <-. auto.
Qed.

Section Cases.
Context `{!ObjectPermissionChecker}.

Lemma user_assign_perm_cases self perm user obj pk st :
  obj_pk obj = Some pk ->
  (exists e,
      UserObjectPermissionManager.assign_perm self perm user obj st
      = (Raise e, st))
  \/ (exists P r rows',
        Permission_objects_get (get_for_model obj) perm st = (Return P, st)
        /\ UserObjectPermissionManager.assign_perm self perm user obj st
           = (Return r,
              set_cache (patch_on_grant (user_key user obj) perm (cache st))
                (set_table UserTable rows' st))
        /\ ((rows' = user_object_permission st
             /\ rows_for (user_pk user) P (get_for_model obj) pk
                  (user_object_permission st) = [r])
            \/ (rows' = user_object_permission st ++ [r]
                /\ rows_for (user_pk user) P (get_for_model obj) pk
                     (user_object_permission st) = []
                /\ r = {| row_id := next_id (user_object_permission st);
                          row_permission := P; row_subject := user_pk user;
                          row_content_type := get_for_model obj;
                          row_object_pk := pk |}))).
Proof.
  intros Hpk. unfold UserObjectPermissionManager.assign_perm. rewrite Hpk.
  pose proof (Permission_objects_get_keeps (get_for_model obj) perm st) as Hst.
  destruct (Permission_objects_get (get_for_model obj) perm st)
    as [[P | e] st0] eqn:HP; simpl in Hst; subst st0;
    [| left; exists e; unfold bind at 1; now rewrite HP].
  destruct (get_or_create_grant_cases UserTable self (kw_user user)
              (user_pk user) P obj pk st Hpk eq_refl)
    as [[e He] | (r & created & rows' & Hrun & Hrows)].
  - left. exists e. unfold bind at 1. rewrite HP.
    change (if BaseObjectPermissionManager.is_generic self
            then [kw_permission P; kw_user user] ++
                 [kw_content_type (get_for_model obj); kw_object_pk pk]
            else [kw_permission P; kw_user user] ++ [kw_content_object obj])
      with (grant_kwargs self (kw_user user) P obj pk).
    unfold bind at 1. now rewrite He.
  - right. exists P, r, rows'. split; [reflexivity |]. split; [| exact Hrows].
    unfold bind at 1. rewrite HP.
    change (if BaseObjectPermissionManager.is_generic self
            then [kw_permission P; kw_user user] ++
                 [kw_content_type (get_for_model obj); kw_object_pk pk]
            else [kw_permission P; kw_user user] ++ [kw_content_object obj])
      with (grant_kwargs self (kw_user user) P obj pk).
    unfold bind at 1. rewrite Hrun. simpl fst. rewrite add_to_cache_run.
    unfold ret. rewrite cache_set_table. reflexivity.
Qed.

Lemma group_assign_perm_cases self perm group obj pk st :
  obj_pk obj = Some pk ->
  (exists e,
      GroupObjectPermissionManager.assign_perm self perm group obj st
      = (Raise e, st))
  \/ (exists P r rows',
        Permission_objects_get (get_for_model obj) perm st = (Return P, st)
        /\ GroupObjectPermissionManager.assign_perm self perm group obj st
           = (Return r,
              set_cache
                (invalidate (member_keys group obj st)
                   (patch_on_grant (group_key group obj) perm (cache st)))
                (set_table GroupTable rows' st))
        /\ ((rows' = group_object_permission st
             /\ rows_for (group_pk group) P (get_for_model obj) pk
                  (group_object_permission st) = [r])
            \/ (rows' = group_object_permission st ++ [r]
                /\ rows_for (group_pk group) P (get_for_model obj) pk
                     (group_object_permission st) = []
                /\ r = {| row_id := next_id (group_object_permission st);
                          row_permission := P; row_subject := group_pk group;
                          row_content_type := get_for_model obj;
                          row_object_pk := pk |}))).
Proof.
  intros Hpk. unfold GroupObjectPermissionManager.assign_perm. rewrite Hpk.
  pose proof (Permission_objects_get_keeps (get_for_model obj) perm st) as Hst.
  destruct (Permission_objects_get (get_for_model obj) perm st)
    as [[P | e] st0] eqn:HP; simpl in Hst; subst st0;
    [| left; exists e; unfold bind at 1; now rewrite HP].
  destruct (get_or_create_grant_cases GroupTable self (kw_group group)
              (group_pk group) P obj pk st Hpk eq_refl)
    as [[e He] | (r & created & rows' & Hrun & Hrows)].
  - left. exists e. unfold bind at 1. rewrite HP.
    change (if BaseObjectPermissionManager.is_generic self
            then [kw_permission P; kw_group group] ++
                 [kw_content_type (get_for_model obj); kw_object_pk pk]
            else [kw_permission P; kw_group group] ++ [kw_content_object obj])
      with (grant_kwargs self (kw_group group) P obj pk).
    unfold bind at 1. now rewrite He.
  - right. exists P, r, rows'. split; [reflexivity |]. split; [| exact Hrows].
    unfold bind at 1. rewrite HP.
    change (if BaseObjectPermissionManager.is_generic self
            then [kw_permission P; kw_group group] ++
                 [kw_content_type (get_for_model obj); kw_object_pk pk]
            else [kw_permission P; kw_group group] ++ [kw_content_object obj])
      with (grant_kwargs self (kw_group group) P obj pk).
    unfold bind at 1. rewrite Hrun. simpl fst.
    rewrite add_to_cache_run, fan_out_run.
    unfold ret. rewrite (member_keys_frame group obj _ st) by reflexivity.
    reflexivity.
Qed.

End Cases.

(** ** Frames and the reach of the cache writes *)

Section Frames.
Context `{!ObjectPermissionChecker}.

Lemma patch_on_grant_other key perm c k :
  k <> key -> patch_on_grant key perm c !! k = c !! k.
Proof.
  intros Hne. unfold patch_on_grant.
  destruct (c !! key) as [l|]; [destruct (contains perm l) |];
    try reflexivity.
  now apply lookup_insert_ne.
Qed.

Lemma patch_on_revoke_other key perm c k :
  k <> key -> patch_on_revoke key perm c !! k = c !! k.
Proof.
  intros Hne. unfold patch_on_revoke.
  destruct (c !! key) as [l|]; [destruct (contains perm l) |];
    try reflexivity.
  now apply lookup_insert_ne.
Qed.

Lemma user_assign_perm_state self perm user obj st :
  snd (UserObjectPermissionManager.assign_perm self perm user obj st) = st
  \/ exists rows',
       snd (UserObjectPermissionManager.assign_perm self perm user obj st)
       = set_cache (patch_on_grant (user_key user obj) perm (cache st))
           (set_table UserTable rows' st).
Proof.
  destruct (obj_pk obj) as [pk|] eqn:Hpk.
  - destruct (user_assign_perm_cases self perm user obj pk st Hpk)
      as [[e He] | (P & r & rows' & _ & Hr & _)].
    + left. now rewrite He.
    + right. exists rows'. now rewrite Hr.
  - left. unfold UserObjectPermissionManager.assign_perm. now rewrite Hpk.
Qed.

Lemma group_assign_perm_state self perm group obj st :
  snd (GroupObjectPermissionManager.assign_perm self perm group obj st) = st
  \/ exists rows',
       snd (GroupObjectPermissionManager.assign_perm self perm group obj st)
       = set_cache
           (invalidate (member_keys group obj st)
              (patch_on_grant (group_key group obj) perm (cache st)))
           (set_table GroupTable rows' st).
Proof.
  destruct (obj_pk obj) as [pk|] eqn:Hpk.
  - destruct (group_assign_perm_cases self perm group obj pk st Hpk)
      as [[e He] | (P & r & rows' & _ & Hr & _)].
    + left. now rewrite He.
    + right. exists rows'. now rewrite Hr.
  - left. unfold GroupObjectPermissionManager.assign_perm. now rewrite Hpk.
Qed.

Lemma user_remove_perm_state self perm user obj st :
  snd (UserObjectPermissionManager.remove_perm self perm user obj st) = st
  \/ exists rows',
       snd (UserObjectPermissionManager.remove_perm self perm user obj st)
       = set_cache (patch_on_revoke (user_key user obj) perm (cache st))
           (set_table UserTable rows' st).
Proof.
  destruct (obj_pk obj) as [pk|] eqn:Hpk.
  - right. eexists. now rewrite (user_remove_perm_run _ _ _ _ pk _ Hpk).
  - left. unfold UserObjectPermissionManager.remove_perm. now rewrite Hpk.
Qed.

Lemma group_remove_perm_state self perm group obj st :
  snd (GroupObjectPermissionManager.remove_perm self perm group obj st) = st
  \/ exists rows',
       snd (GroupObjectPermissionManager.remove_perm self perm group obj st)
       = set_cache
           (invalidate (member_keys group obj st)
              (patch_on_revoke (group_key group obj) perm (cache st)))
           (set_table GroupTable rows' st).
Proof.
  destruct (obj_pk obj) as [pk|] eqn:Hpk.
  - right. eexists. now rewrite (group_remove_perm_run _ _ _ _ pk _ Hpk).
  - left. unfold GroupObjectPermissionManager.remove_perm. now rewrite Hpk.
Qed.

(** X2: whatever the arguments and the state, and whether it returns or
    raises, a user manager leaves the permission table, the user table, the
    group assignment table and the emitted warnings as they were; a group
    manager leaves the user assignment table alone in the same way; and
    [get_for_object] hands back the very state it was given. *)
Theorem managers_keep_to_their_table self perm user group obj st :
  beside_user_manager
    (snd (UserObjectPermissionManager.assign_perm self perm user obj st))
  = beside_user_manager st
  /\ beside_user_manager
       (snd (UserObjectPermissionManager.remove_perm self perm user obj st))
     = beside_user_manager st
  /\ beside_group_manager
       (snd (GroupObjectPermissionManager.assign_perm self perm group obj st))
     = beside_group_manager st
  /\ beside_group_manager
       (snd (GroupObjectPermissionManager.remove_perm self perm group obj st))
     = beside_group_manager st
  /\ snd (UserObjectPermissionManager.get_for_object self user obj st) = st
  /\ snd (GroupObjectPermissionManager.get_for_object self group obj st) = st.
Proof.
  split; [| split; [| split; [| split; [| split]]]].
  - destruct (user_assign_perm_state self perm user obj st) as [-> | [? ->]];
      reflexivity.
  - destruct (user_remove_perm_state self perm user obj st) as [-> | [? ->]];
      reflexivity.
  - destruct (group_assign_perm_state self perm group obj st) as [-> | [? ->]];
      reflexivity.
  - destruct (group_remove_perm_state self perm group obj st) as [-> | [? ->]];
      reflexivity.
  - unfold UserObjectPermissionManager.get_for_object,
      BaseObjectPermissionManager.filter_content_type.
    destruct (obj_pk obj); [| reflexivity].
    destruct (BaseObjectPermissionManager.get_field self "content_type");
      reflexivity.
  - unfold GroupObjectPermissionManager.get_for_object,
      BaseObjectPermissionManager.filter_content_type.
    destruct (obj_pk obj); [| reflexivity].
    destruct (BaseObjectPermissionManager.get_field self "content_type");
      reflexivity.
Qed.

(** X3: the cache writes are local.  A user grant or revoke leaves every
    entry but the one of (user, object) as it was; a group grant or revoke
    leaves every entry but the group's own and those of its members as it
    was.  In every state, whether the call returns or raises. *)
Theorem cache_writes_are_local self perm user group obj st k :
  (k <> user_key user obj ->
   cache (snd (UserObjectPermissionManager.assign_perm self perm user obj st))
     !! k = cache st !! k
   /\ cache (snd (UserObjectPermissionManager.remove_perm self perm user obj
                    st)) !! k
      = cache st !! k)
  /\ (k <> group_key group obj ->
      k ∉ member_keys group obj st ->
      cache (snd (GroupObjectPermissionManager.assign_perm self perm group obj
                    st)) !! k
      = cache st !! k
      /\ cache (snd (GroupObjectPermissionManager.remove_perm self perm group
                       obj st)) !! k
         = cache st !! k).
Proof.
  split.
  - intros Hne. split.
    + destruct (user_assign_perm_state self perm user obj st) as [-> | [? ->]];
        [reflexivity |]. simpl. now apply patch_on_grant_other.
    + destruct (user_remove_perm_state self perm user obj st) as [-> | [? ->]];
        [reflexivity |]. simpl. now apply patch_on_revoke_other.
  - intros Hne Hmem. split.
    + destruct (group_assign_perm_state self perm group obj st)
        as [-> | [? ->]]; [reflexivity |]. simpl.
      rewrite invalidate_other by assumption. now apply patch_on_grant_other.
    + destruct (group_remove_perm_state self perm group obj st)
        as [-> | [? ->]]; [reflexivity |]. simpl.
      rewrite invalidate_other by assumption. now apply patch_on_revoke_other.
Qed.

Lemma duplicate_free_patch_on_grant key perm c :
  duplicate_free c -> duplicate_free (patch_on_grant key perm c).
Proof.
  intros Hc k l. unfold patch_on_grant.
  destruct (c !! key) as [l0|] eqn:Hl0; [| apply Hc].
  destruct (contains perm l0) eqn:Hin; [apply Hc |].
  destruct (decide (k = key)) as [-> | Hne].
  - rewrite lookup_insert_eq. intros [= <-].
    apply NoDup_app. split; [now apply (Hc key) |].
    split; [| apply NoDup_singleton].
    intros x Hx Hx'. apply list_elem_of_singleton in Hx'. subst x.
    apply contains_false in Hin. apply Hin. now apply list_elem_of_In.
  - rewrite lookup_insert_ne by congruence. apply Hc.
Qed.

Lemma duplicate_free_patch_on_revoke key perm c :
  duplicate_free c -> duplicate_free (patch_on_revoke key perm c).
Proof.
  intros Hc k l. unfold patch_on_revoke.
  destruct (c !! key) as [l0|] eqn:Hl0; [| apply Hc].
  destruct (contains perm l0) eqn:Hin; [| apply Hc].
  destruct (decide (k = key)) as [-> | Hne].
  - rewrite lookup_insert_eq. intros [= <-].
    apply contains_In in Hin.
    destruct (In_first_split perm l0 Hin) as (l1 & l2 & -> & Hnin).
    rewrite pop_first_split by assumption.
    specialize (Hc key _ Hl0).
    apply NoDup_app in Hc as (H1 & H12 & H2).
    apply NoDup_cons in H2 as [_ H2].
    apply NoDup_app. split; [assumption |]. split; [| assumption].
    intros x Hx Hx'. apply (H12 x Hx). now apply list_elem_of_further.
  - rewrite lookup_insert_ne by congruence. apply Hc.
Qed.

Lemma duplicate_free_invalidate keys c :
  duplicate_free c -> duplicate_free (invalidate keys c).
Proof.
  intros Hc k l. rewrite invalidate_lookup.
  case_bool_decide; [discriminate | apply Hc].
Qed.

(** X4: the managers keep the cache free of duplicates: if no cached list
    holds a codename twice before a grant or a revoke, of a user or of a
    group, none does after it. *)
Theorem cache_stays_duplicate_free self perm user group obj st :
  duplicate_free (cache st) ->
  duplicate_free
    (cache (snd (UserObjectPermissionManager.assign_perm self perm user obj st)))
  /\ duplicate_free
       (cache (snd (UserObjectPermissionManager.remove_perm self perm user obj
                      st)))
  /\ duplicate_free
       (cache (snd (GroupObjectPermissionManager.assign_perm self perm group
                      obj st)))
  /\ duplicate_free
       (cache (snd (GroupObjectPermissionManager.remove_perm self perm group
                      obj st))).
Proof.
  intros Hc. split; [| split; [| split]].
  - destruct (user_assign_perm_state self perm user obj st) as [-> | [? ->]];
      [assumption |]. simpl. now apply duplicate_free_patch_on_grant.
  - destruct (user_remove_perm_state self perm user obj st) as [-> | [? ->]];
      [assumption |]. simpl. now apply duplicate_free_patch_on_revoke.
  - destruct (group_assign_perm_state self perm group obj st)
      as [-> | [? ->]]; [assumption |]. simpl.
    now apply duplicate_free_invalidate, duplicate_free_patch_on_grant.
  - destruct (group_remove_perm_state self perm group obj st)
      as [-> | [? ->]]; [assumption |]. simpl.
    now apply duplicate_free_invalidate, duplicate_free_patch_on_revoke.
Qed.

End Frames.

Lemma cache_writes_are_local_witness :
  cache (snd (@GroupObjectPermissionManager.remove_perm demo_checker
                generic_manager "view" editors document
                (demo_state {[ demo_key (UserIdentity 2) document := ["view"] ]})))
    !! demo_key (UserIdentity 2) document
  = Some ["view"].
Proof.
  destruct (@cache_writes_are_local demo_checker generic_manager "view" alice
              editors document
              (demo_state {[ demo_key (UserIdentity 2) document := ["view"] ]})
              (demo_key (UserIdentity 2) document)) as [_ Hgroup].
  destruct Hgroup as [_ Hrevoke].
  - vm_compute. discriminate.
  - vm_compute. intros Hin. apply list_elem_of_singleton in Hin.
    discriminate Hin.
  - rewrite Hrevoke. vm_compute. reflexivity.
Defined.

Lemma cache_stays_duplicate_free_witness :
  duplicate_free
    (cache (snd (@GroupObjectPermissionManager.assign_perm demo_checker
                   generic_manager "view" editors document
                   member_cached_state))).
Proof.
  apply (@cache_stays_duplicate_free demo_checker generic_manager "view" alice
           editors document member_cached_state).
  intros k l Hl. unfold member_cached_state, demo_state in Hl. simpl in Hl.
  apply lookup_singleton_Some in Hl as [_ <-].
  apply NoDup_singleton.
Defined.

(** ** What a grant and a revoke do to the table *)

Lemma next_id_fresh rows x : In x rows -> row_id x < next_id rows.
Proof.
  unfold next_id. induction rows as [|y rows IH]; simpl; [tauto |].
  intros [-> | Hin]; [lia |]. specialize (IH Hin). lia.
Qed.

Lemma qs_delete_In kwargs rows r :
  In r (qs_delete kwargs rows) <-> In r rows /\ matches kwargs r = false.
Proof.
  unfold qs_delete. rewrite filter_In. now rewrite negb_true_iff.
Qed.

Lemma qs_delete_twice kwargs rows :
  qs_delete kwargs (qs_delete kwargs rows) = qs_delete kwargs rows.
Proof. apply qs_delete_none, qs_filter_delete. Qed.

Lemma matches_revoke_filters_false self who s perm obj pk r :
  subject_of who = Some s ->
  matches (revoke_filters self who perm obj pk) r = false
  <-> ~ (perm_codename (row_permission r) = perm
         /\ perm_content_type (row_permission r) = get_for_model obj
         /\ row_subject r = s /\ row_object_pk r = pk).
Proof.
  intros Hwho. rewrite (matches_revoke_filters _ _ s) by assumption.
  rewrite <- not_true_iff_false, !andb_true_iff, !bool_decide_eq_true.
  tauto.
Qed.

Section Tables.
Context `{!ObjectPermissionChecker}.

(** X5: a grant that returns a row either found it in the table and left
    the table as it was, or appended it at the end, under a primary key
    above every key of the table; it alters or removes no row.  The row is
    for the subject and the object of the call and points to a permission
    of the permission table with the codename and the content type of the
    object. *)
Theorem grant_extends_table self perm obj st :
  (forall user r st',
      UserObjectPermissionManager.assign_perm self perm user obj st
      = (Return r, st') ->
      ((user_object_permission st' = user_object_permission st
        /\ In r (user_object_permission st))
       \/ (user_object_permission st' = user_object_permission st ++ [r]
           /\ forall x, In x (user_object_permission st) ->
                row_id x < row_id r))
      /\ In (row_permission r) (auth_permission st)
      /\ perm_codename (row_permission r) = perm
      /\ perm_content_type (row_permission r) = get_for_model obj
      /\ row_subject r = user_pk user
      /\ row_content_type r = get_for_model obj
      /\ obj_pk obj = Some (row_object_pk r))
  /\ (forall group r st',
        GroupObjectPermissionManager.assign_perm self perm group obj st
        = (Return r, st') ->
        ((group_object_permission st' = group_object_permission st
          /\ In r (group_object_permission st))
         \/ (group_object_permission st' = group_object_permission st ++ [r]
             /\ forall x, In x (group_object_permission st) ->
                  row_id x < row_id r))
        /\ In (row_permission r) (auth_permission st)
        /\ perm_codename (row_permission r) = perm
        /\ perm_content_type (row_permission r) = get_for_model obj
        /\ row_subject r = group_pk group
        /\ row_content_type r = get_for_model obj
        /\ obj_pk obj = Some (row_object_pk r)).
Proof.
  split.
  - intros user r st' Hrun.
    destruct (obj_pk obj) as [pk|] eqn:Hpk;
      [| unfold UserObjectPermissionManager.assign_perm in Hrun;
         rewrite Hpk in Hrun; discriminate].
    destruct (user_assign_perm_cases self perm user obj pk st Hpk)
      as [[e He] | (P & r' & rows' & HP & Hr & Hrows)]; [congruence |].
    rewrite Hr in Hrun. injection Hrun as -> <-.
    destruct (Permission_objects_get_found _ _ _ _ HP) as (HinP & Hct & Hcode).
    destruct Hrows as [[-> Hone] | (-> & Hnone & ->)].
    + assert (In r (rows_for (user_pk user) P (get_for_model obj) pk
                      (user_object_permission st))) as Hin
          by (rewrite Hone; now left).
      apply rows_for_In in Hin as [Hin Hkey].
      unfold row_key in Hkey. injection Hkey as Hs HrP Hrct Hrpk.
      rewrite HrP. split; [left; split; [reflexivity | assumption] |].
      rewrite Hrpk. auto 10.
    + simpl. split; [right; split; [reflexivity |] |]; [| auto 10].
      intros x Hx. now apply next_id_fresh.
  - intros group r st' Hrun.
    destruct (obj_pk obj) as [pk|] eqn:Hpk;
      [| unfold GroupObjectPermissionManager.assign_perm in Hrun;
         rewrite Hpk in Hrun; discriminate].
    destruct (group_assign_perm_cases self perm group obj pk st Hpk)
      as [[e He] | (P & r' & rows' & HP & Hr & Hrows)]; [congruence |].
    rewrite Hr in Hrun. injection Hrun as -> <-.
    destruct (Permission_objects_get_found _ _ _ _ HP) as (HinP & Hct & Hcode).
    destruct Hrows as [[-> Hone] | (-> & Hnone & ->)].
    + assert (In r (rows_for (group_pk group) P (get_for_model obj) pk
                      (group_object_permission st))) as Hin
          by (rewrite Hone; now left).
      apply rows_for_In in Hin as [Hin Hkey].
      unfold row_key in Hkey. injection Hkey as Hs HrP Hrct Hrpk.
      rewrite HrP. split; [left; split; [reflexivity | assumption] |].
      rewrite Hrpk. auto 10.
    + simpl. split; [right; split; [reflexivity |] |]; [| auto 10].
      intros x Hx. now apply next_id_fresh.
Qed.

(** X6: a revoke on a saved object deletes the rows with the codename, the
    content type of the object on their permission, the subject and the
    primary key of the object, and no other: every other row is kept and
    none is added.  A second identical revoke finds nothing left to delete
    and leaves the table as the first left it. *)
Theorem revoke_deletes_its_rows_only self perm obj pk st :
  obj_pk obj = Some pk ->
  (forall user,
      let st1 :=
        snd (UserObjectPermissionManager.remove_perm self perm user obj st) in
      (forall r,
          In r (user_object_permission st1)
          <-> In r (user_object_permission st)
              /\ ~ (perm_codename (row_permission r) = perm
                    /\ perm_content_type (row_permission r) = get_for_model obj
                    /\ row_subject r = user_pk user
                    /\ row_object_pk r = pk))
      /\ user_object_permission
           (snd (UserObjectPermissionManager.remove_perm self perm user obj st1))
         = user_object_permission st1)
  /\ (forall group,
        let st1 :=
          snd (GroupObjectPermissionManager.remove_perm self perm group obj st)
        in
        (forall r,
            In r (group_object_permission st1)
            <-> In r (group_object_permission st)
                /\ ~ (perm_codename (row_permission r) = perm
                      /\ perm_content_type (row_permission r)
                         = get_for_model obj
                      /\ row_subject r = group_pk group
                      /\ row_object_pk r = pk))
        /\ group_object_permission
             (snd (GroupObjectPermissionManager.remove_perm self perm group obj
                     st1))
           = group_object_permission st1).
Proof.
  intros Hpk. split.
  - intros user st1. subst st1.
    rewrite (user_remove_perm_run _ _ _ _ pk st Hpk). simpl. split.
    + intros r. rewrite qs_delete_In.
      now rewrite (matches_revoke_filters_false _ _ (user_pk user)).
    + rewrite (user_remove_perm_run _ _ _ _ pk _ Hpk). simpl.
      apply qs_delete_twice.
  - intros group st1. subst st1.
    rewrite (group_remove_perm_run _ _ _ _ pk st Hpk). simpl. split.
    + intros r. rewrite qs_delete_In.
      now rewrite (matches_revoke_filters_false _ _ (group_pk group)).
    + rewrite (group_remove_perm_run _ _ _ _ pk _ Hpk). simpl.
      apply qs_delete_twice.
Qed.

End Tables.

Lemma grant_extends_table_witness :
  exists r st',
    @GroupObjectPermissionManager.assign_perm demo_checker generic_manager
      "view" editors document member_cached_granted_state
    = (Return r, st')
    /\ In r (group_object_permission member_cached_granted_state)
    /\ group_object_permission st'
       = group_object_permission member_cached_granted_state.
Proof.
  eexists _, _. split; [vm_compute; reflexivity |].
  destruct (@grant_extends_table demo_checker generic_manager "view" document
              member_cached_granted_state) as [_ Hgroup].
  destruct (Hgroup editors _ _ eq_refl) as [[[Hsame Hin] | [Hnew _]] _].
  - split; [exact Hin | reflexivity].
  - vm_compute in Hnew. discriminate Hnew.
Defined.

Lemma revoke_deletes_its_rows_only_witness :
  group_object_permission
    (snd (@GroupObjectPermissionManager.remove_perm demo_checker direct_manager
            "view" editors document member_cached_granted_state))
  = []
  /\ group_object_permission
       (snd (@GroupObjectPermissionManager.remove_perm demo_checker
               direct_manager "edit" editors document
               member_cached_granted_state))
     = group_object_permission member_cached_granted_state.
Proof.
  split.
  - destruct (@revoke_deletes_its_rows_only demo_checker direct_manager "view"
                document 5 member_cached_granted_state eq_refl) as [_ Hgroup].
    destruct (Hgroup editors) as [Hrows _].
    remember (group_object_permission
                (snd (@GroupObjectPermissionManager.remove_perm demo_checker
                        direct_manager "view" editors document
                        member_cached_granted_state))) as rows1 eqn:E.
    clear E. destruct rows1 as [|r rows]; [reflexivity |].
    exfalso. destruct (proj1 (Hrows r) (or_introl eq_refl)) as [Hin Hnot].
    apply Hnot. destruct Hin as [<- | []]. vm_compute. auto.
  - vm_compute. reflexivity.
Defined.

(** ** What a revoke leaves of a cached list *)

Lemma count_occ_first_removed perm (l1 l2 : list string) q :
  count_occ String.string_dec (l1 ++ perm :: l2) q
  = (count_occ String.string_dec (l1 ++ l2) q
     + if String.string_dec perm q then 1 else 0)%nat.
Proof.
  rewrite !count_occ_app. simpl.
  destruct (String.string_dec perm q); lia.
Qed.

Section Counts.
Context `{!ObjectPermissionChecker}.

(** X7: when the cached list of (user, object) holds the codename, a user
    revoke on a saved object rewrites it with one occurrence of the codename
    less and every other codename as often as before.  So the codename is
    gone from the list if it was there once, and is still cached if it was
    there more than once. *)
Theorem user_revoke_drops_one_occurrence self perm user obj pk st l :
  obj_pk obj = Some pk ->
  cache st !! user_key user obj = Some l ->
  In perm l ->
  exists l',
    cache (snd (UserObjectPermissionManager.remove_perm self perm user obj st))
      !! user_key user obj = Some l'
    /\ count_occ String.string_dec l perm
       = S (count_occ String.string_dec l' perm)
    /\ (forall q, q <> perm ->
          count_occ String.string_dec l' q = count_occ String.string_dec l q)
    /\ (In perm l' <-> (2 <= count_occ String.string_dec l perm)%nat).
Proof.
  intros Hpk Hl Hin.
  rewrite (user_remove_perm_run _ _ _ _ pk _ Hpk). simpl.
  unfold patch_on_revoke. rewrite Hl, (proj2 (contains_In perm l) Hin).
  rewrite lookup_insert_eq. exists (pop_first perm l).
  destruct (In_first_split perm l Hin) as (l1 & l2 & -> & Hnin).
  rewrite pop_first_split by assumption.
  split; [reflexivity |]. split; [| split].
  - rewrite count_occ_first_removed.
    destruct (String.string_dec perm perm); [lia | congruence].
  - intros q Hq. rewrite count_occ_first_removed.
    destruct (String.string_dec perm q); [congruence | lia].
  - rewrite count_occ_first_removed.
    destruct (String.string_dec perm perm); [| congruence].
    rewrite (count_occ_In String.string_dec). lia.
Qed.

(** X8: the cache is written only when there is something to change.  A
    user grant leaves the cache as it was when the cached list of (user,
    object) already holds the codename, and so does a user revoke when the
    list does not hold it; in every state, whether the call returns or
    raises. *)
Theorem cache_written_only_on_change self perm user obj st l :
  cache st !! user_key user obj = Some l ->
  (In perm l ->
   cache (snd (UserObjectPermissionManager.assign_perm self perm user obj st))
   = cache st)
  /\ (~ In perm l ->
      cache (snd (UserObjectPermissionManager.remove_perm self perm user obj
                    st))
      = cache st).
Proof.
  intros Hl. split; intros Hin.
  - destruct (user_assign_perm_state self perm user obj st) as [-> | [? ->]];
      [reflexivity |]. simpl. unfold patch_on_grant.
    now rewrite Hl, (proj2 (contains_In perm l) Hin).
  - destruct (user_remove_perm_state self perm user obj st) as [-> | [? ->]];
      [reflexivity |]. simpl. unfold patch_on_revoke.
    now rewrite Hl, (proj2 (contains_false perm l) Hin).
Qed.

End Counts.

Lemma user_revoke_drops_one_occurrence_witness :
  exists l',
    cache (snd (@UserObjectPermissionManager.remove_perm demo_checker
                  generic_manager "view" alice document
                  (demo_state
                     {[ demo_key (UserIdentity 1) document
                        := ["view"; "edit"; "view"] ]})))
      !! demo_key (UserIdentity 1) document = Some l'
    /\ In "view" l'.
Proof.
  destruct (@user_revoke_drops_one_occurrence demo_checker generic_manager
              "view" alice document 5
              (demo_state
                 {[ demo_key (UserIdentity 1) document
                    := ["view"; "edit"; "view"] ]})
              ["view"; "edit"; "view"])
    as (l' & Hl' & _ & _ & Hstill).
  - reflexivity.
  - vm_compute. reflexivity.
  - now left.
  - exists l'. split; [exact Hl' |]. apply Hstill. vm_compute. lia.
Defined.

Lemma cache_written_only_on_change_witness :
  cache (snd (@UserObjectPermissionManager.assign_perm demo_checker
                generic_manager "view" alice document member_cached_state))
  = cache member_cached_state.
Proof.
  apply (@cache_written_only_on_change demo_checker generic_manager "view"
           alice document member_cached_state ["view"]).
  - vm_compute. reflexivity.
  - now left.
Defined.

(** ** The fan-out and the order of the members *)

Lemma invalidate_same_elements keys keys' c :
  (forall k, k ∈ keys <-> k ∈ keys') ->
  invalidate keys c = invalidate keys' c.
Proof.
  intros Hsame. apply map_eq. intros k. rewrite !invalidate_lookup.
  now rewrite (bool_decide_ext _ _ (Hsame k)).
Qed.

Section Members.
Context `{!ObjectPermissionChecker}.

Lemma member_keys_elem group obj st k :
  k ∈ member_keys group obj st
  <-> exists u, In u (auth_user st)
                /\ group_pk group ∈ user_groups u
                /\ k = user_key u obj.
Proof.
  unfold member_keys, members. rewrite list_elem_of_In, in_map_iff. split.
  - intros (u & <- & Hu). apply filter_In in Hu as [Hu Hg].
    apply bool_decide_eq_true in Hg. eauto.
  - intros (u & Hu & Hg & ->). exists u. split; [reflexivity |].
    apply filter_In. split; [assumption |]. now apply bool_decide_eq_true.
Qed.

Lemma member_keys_same_users group obj st st2 :
  (forall u, In u (auth_user st2) <-> In u (auth_user st)) ->
  forall k, k ∈ member_keys group obj st2 <-> k ∈ member_keys group obj st.
Proof.
  intros Hsame k. rewrite !member_keys_elem.
  split; intros (u & Hu & Hrest); exists u; (split; [| exact Hrest]);
    now apply Hsame.
Qed.

(** X9: the cache a group revoke or grant leaves depends on who the members
    are, not on the order in which the user table lists them, nor on how
    often: two states with the same cache and the same users, listed in any
    order, end with the same cache (for the grant: on the same tables, when
    it passes the checks). *)
Theorem fan_out_ignores_member_order self perm group obj pk st st2 :
  obj_pk obj = Some pk ->
  cache st2 = cache st ->
  (forall u, In u (auth_user st2) <-> In u (auth_user st)) ->
  cache (snd (GroupObjectPermissionManager.remove_perm self perm group obj st2))
  = cache (snd (GroupObjectPermissionManager.remove_perm self perm group obj st))
  /\ (forall P,
        Permission_objects_get (get_for_model obj) perm st = (Return P, st) ->
        auth_permission st2 = auth_permission st ->
        group_object_permission st2 = group_object_permission st ->
        unique_together (group_object_permission st) ->
        cache (snd (GroupObjectPermissionManager.assign_perm self perm group
                      obj st2))
        = cache (snd (GroupObjectPermissionManager.assign_perm self perm group
                        obj st))).
Proof.
  intros Hpk Hcache Husers. split.
  - rewrite !(group_remove_perm_run _ _ _ _ pk _ Hpk). simpl.
    rewrite Hcache. apply invalidate_same_elements.
    now apply member_keys_same_users.
  - intros P HP Hperms Hrows Hu.
    assert (HP2 : Permission_objects_get (get_for_model obj) perm st2
                  = (Return P, st2))
      by (now apply (Permission_objects_get_frame _ _ st)).
    assert (Hu2 : unique_together (group_object_permission st2))
      by (now rewrite Hrows).
    destruct (group_assign_perm_run self perm group obj pk P st Hpk HP Hu)
      as (r & rows' & -> & _).
    destruct (group_assign_perm_run self perm group obj pk P st2 Hpk HP2 Hu2)
      as (r2 & rows2 & -> & _).
    simpl. rewrite Hcache. apply invalidate_same_elements.
    now apply member_keys_same_users.
Qed.

End Members.

Lemma fan_out_ignores_member_order_witness :
  cache (snd (@GroupObjectPermissionManager.remove_perm demo_checker
                generic_manager "view" editors document
                {| auth_permission := [view];
                   auth_user := [bob; alice; alice];
                   user_object_permission := [];
                   group_object_permission := [];
                   cache := cache member_cached_state;
                   warnings := [] |}))
  = cache (snd (@GroupObjectPermissionManager.remove_perm demo_checker
                  generic_manager "view" editors document
                  member_cached_state)).
Proof.
  apply (@fan_out_ignores_member_order demo_checker generic_manager "view"
           editors document 5 member_cached_state).
  - reflexivity.
  - reflexivity.
  - intros u. simpl. tauto.
Defined.

(** ** A revoke before a grant *)

Lemma get_or_create_grant_fresh t self who s P obj pk st :
  obj_pk obj = Some pk ->
  subject_of who = Some s ->
  rows_for s P (get_for_model obj) pk (table t st) = [] ->
  get_or_create t (grant_kwargs self who P obj pk) st
  = (Return ({| row_id := next_id (table t st); row_permission := P;
                row_subject := s; row_content_type := get_for_model obj;
                row_object_pk := pk |}, true),
     set_table t
       (table t st ++
        [{| row_id := next_id (table t st); row_permission := P;
            row_subject := s; row_content_type := get_for_model obj;
            row_object_pk := pk |}]) st).
Proof.
  intros Hpk Hwho Hnone. unfold get_or_create, bind, gets.
  rewrite (qs_filter_grant_kwargs _ _ s), Hnone by assumption.
  now rewrite (new_row_grant_kwargs _ _ s) by assumption.
Qed.

Lemma revoked_rows_app perm ct s pk rows rows' :
  revoked_rows perm ct s pk (rows ++ rows')
  = revoked_rows perm ct s pk rows ++ revoked_rows perm ct s pk rows'.
Proof. apply List.filter_app. Qed.

Section RevokeGrant.
Context `{!ObjectPermissionChecker}.

(** X10: on a saved object and with a known permission, a revoke followed
    by the grant of the same (permission, subject, object) always succeeds
    and leaves exactly one row for it, the fresh row the grant answers,
    whatever the table held before, also rows that broke the uniqueness
    constraint. *)
Theorem revoke_then_grant_leaves_one_row self perm obj pk P st :
  obj_pk obj = Some pk ->
  Permission_objects_get (get_for_model obj) perm st = (Return P, st) ->
  (forall user, exists r st2,
      UserObjectPermissionManager.assign_perm self perm user obj
        (snd (UserObjectPermissionManager.remove_perm self perm user obj st))
      = (Return r, st2)
      /\ rows_for (user_pk user) P (get_for_model obj) pk
           (user_object_permission st2) = [r]
      /\ revoked_rows perm (get_for_model obj) (user_pk user) pk
           (user_object_permission st2) = [r])
  /\ (forall group, exists r st2,
        GroupObjectPermissionManager.assign_perm self perm group obj
          (snd (GroupObjectPermissionManager.remove_perm self perm group obj st))
        = (Return r, st2)
        /\ rows_for (group_pk group) P (get_for_model obj) pk
             (group_object_permission st2) = [r]
        /\ revoked_rows perm (get_for_model obj) (group_pk group) pk
             (group_object_permission st2) = [r]).
Proof.
  intros Hpk HP.
  destruct (Permission_objects_get_found _ _ _ _ HP) as (_ & Hct & Hcode).
  split.
  - intros user.
    rewrite (user_remove_perm_run _ _ _ _ pk st Hpk). cbn [snd].
    set (rows1 := qs_delete (revoke_filters self (kw_user user) perm obj pk)
                    (user_object_permission st)).
    set (st1 := set_cache
                  (patch_on_revoke (user_key user obj) perm (cache st))
                  (set_table UserTable rows1 st)).
    set (r0 := {| row_id := next_id rows1; row_permission := P;
                  row_subject := user_pk user;
                  row_content_type := get_for_model obj;
                  row_object_pk := pk |}).
    destruct (revoke_leaves_none self (kw_user user) (user_pk user) perm P obj
                pk (user_object_permission st) r0 eq_refl Hcode Hct eq_refl)
      as (Hrev & Hnone & _). fold rows1 in Hrev, Hnone.
    assert (HP1 : Permission_objects_get (get_for_model obj) perm st1
                  = (Return P, st1))
      by (apply (Permission_objects_get_frame _ _ st); [reflexivity | exact HP]).
    exists r0. eexists. split; [| split].
    + unfold UserObjectPermissionManager.assign_perm. rewrite Hpk.
      unfold bind at 1. rewrite HP1.
      change (if BaseObjectPermissionManager.is_generic self
              then [kw_permission P; kw_user user] ++
                   [kw_content_type (get_for_model obj); kw_object_pk pk]
              else [kw_permission P; kw_user user] ++ [kw_content_object obj])
        with (grant_kwargs self (kw_user user) P obj pk).
      unfold bind at 1.
      rewrite (get_or_create_grant_fresh UserTable self (kw_user user)
                 (user_pk user) P obj pk st1 Hpk eq_refl Hnone).
      simpl fst. rewrite add_to_cache_run. reflexivity.
    + simpl. rewrite rows_for_app, Hnone. unfold rows_for. simpl.
      now rewrite bool_decide_eq_true_2.
    + simpl. rewrite revoked_rows_app, Hrev. unfold revoked_rows. simpl.
      now rewrite !bool_decide_eq_true_2.
  - intros group.
    rewrite (group_remove_perm_run _ _ _ _ pk st Hpk). cbn [snd].
    set (rows1 := qs_delete (revoke_filters self (kw_group group) perm obj pk)
                    (group_object_permission st)).
    set (st1 := set_cache
                  (invalidate (member_keys group obj st)
                     (patch_on_revoke (group_key group obj) perm (cache st)))
                  (set_table GroupTable rows1 st)).
    set (r0 := {| row_id := next_id rows1; row_permission := P;
                  row_subject := group_pk group;
                  row_content_type := get_for_model obj;
                  row_object_pk := pk |}).
    destruct (revoke_leaves_none self (kw_group group) (group_pk group) perm P
                obj pk (group_object_permission st) r0 eq_refl Hcode Hct
                eq_refl)
      as (Hrev & Hnone & _). fold rows1 in Hrev, Hnone.
    assert (HP1 : Permission_objects_get (get_for_model obj) perm st1
                  = (Return P, st1))
      by (apply (Permission_objects_get_frame _ _ st); [reflexivity | exact HP]).
    exists r0. eexists. split; [| split].
    + unfold GroupObjectPermissionManager.assign_perm. rewrite Hpk.
      unfold bind at 1. rewrite HP1.
      change (if BaseObjectPermissionManager.is_generic self
              then [kw_permission P; kw_group group] ++
                   [kw_content_type (get_for_model obj); kw_object_pk pk]
              else [kw_permission P; kw_group group] ++ [kw_content_object obj])
        with (grant_kwargs self (kw_group group) P obj pk).
      unfold bind at 1.
      rewrite (get_or_create_grant_fresh GroupTable self (kw_group group)
                 (group_pk group) P obj pk st1 Hpk eq_refl Hnone).
      simpl fst. rewrite add_to_cache_run, fan_out_run. reflexivity.
    + simpl. rewrite rows_for_app, Hnone. unfold rows_for. simpl.
      now rewrite bool_decide_eq_true_2.
    + simpl. rewrite revoked_rows_app, Hrev. unfold revoked_rows. simpl.
      now rewrite !bool_decide_eq_true_2.
Qed.

End RevokeGrant.

Lemma revoke_then_grant_leaves_one_row_witness :
  ~ unique_together (user_object_permission duplicated_rows_state)
  /\ exists r st2,
       @UserObjectPermissionManager.assign_perm demo_checker generic_manager
         "view" alice document
         (snd (@UserObjectPermissionManager.remove_perm demo_checker
                 generic_manager "view" alice document duplicated_rows_state))
       = (Return r, st2)
       /\ rows_for 1 view 3 5 (user_object_permission st2) = [r].
Proof.
  split.
  - unfold unique_together. simpl. intros Hnd.
    apply NoDup_cons in Hnd as [Hnin _]. apply Hnin. now left.
  - destruct (@revoke_then_grant_leaves_one_row demo_checker generic_manager
                "view" document 5 view duplicated_rows_state eq_refl eq_refl)
      as [Huser _].
    destruct (Huser alice) as (r & st2 & Hrun & Hone & _).
    exists r, st2. auto.
Defined.

(** ** The alias and the permission table *)

Section Alias.
Context `{!ObjectPermissionChecker}.

(** X11: the deprecated [assign] warns before it checks anything: on an
    object without a primary key it raises [ObjectNotPersisted] like
    [assign_perm], but the deprecation warning has been emitted; nothing
    else of the state has changed. *)
Theorem deprecated_assign_warns_before_failing self perm user group obj st :
  obj_pk obj = None ->
  (exists message,
      UserObjectPermissionManager.assign self perm user obj st
      = (Raise ObjectNotPersisted,
         set_warnings (warnings st ++ [(message, DeprecationWarning)]) st))
  /\ (exists message,
        GroupObjectPermissionManager.assign self perm group obj st
        = (Raise ObjectNotPersisted,
           set_warnings (warnings st ++ [(message, DeprecationWarning)]) st)).
Proof.
  intros Hpk. split; eexists.
  - unfold UserObjectPermissionManager.assign,
      UserObjectPermissionManager.assign_perm, bind, warn, modify.
    rewrite Hpk. reflexivity.
  - unfold GroupObjectPermissionManager.assign,
      GroupObjectPermissionManager.assign_perm, bind, warn, modify.
    rewrite Hpk. reflexivity.
Qed.

(** X12: a revoke does not check that the permission exists.  On a saved
    object, when the permission table has no row with the content type of
    the object and the codename, and every row of the assignment table
    points to a row of the permission table, [remove_perm] returns and
    leaves the assignment table as it was: no row matches.  ([assign_perm]
    raises [DoesNotExist] there.) *)
Theorem revoke_of_unknown_codename_deletes_nothing self perm obj pk st :
  obj_pk obj = Some pk ->
  (forall p, In p (auth_permission st) ->
     perm_content_type p = get_for_model obj -> perm_codename p <> perm) ->
  (forall user,
      (forall r, In r (user_object_permission st) ->
         In (row_permission r) (auth_permission st)) ->
      exists st',
        UserObjectPermissionManager.remove_perm self perm user obj st
        = (Return tt, st')
        /\ user_object_permission st' = user_object_permission st)
  /\ (forall group,
        (forall r, In r (group_object_permission st) ->
           In (row_permission r) (auth_permission st)) ->
        exists st',
          GroupObjectPermissionManager.remove_perm self perm group obj st
          = (Return tt, st')
          /\ group_object_permission st' = group_object_permission st).
Proof.
  intros Hpk Hnone. split.
  - intros user Hfk. eexists.
    split; [apply (user_remove_perm_run _ _ _ _ pk _ Hpk) |]. simpl.
    apply qs_delete_none.
    rewrite (qs_filter_revoke_filters _ _ (user_pk user)) by reflexivity.
    unfold revoked_rows. apply filter_none. intros r Hr.
    apply not_true_iff_false. rewrite !andb_true_iff, !bool_decide_eq_true.
    intros [[[Hcode Hct] _] _].
    exact (Hnone (row_permission r) (Hfk r Hr) Hct Hcode).
  - intros group Hfk. eexists.
    split; [apply (group_remove_perm_run _ _ _ _ pk _ Hpk) |]. simpl.
    apply qs_delete_none.
    rewrite (qs_filter_revoke_filters _ _ (group_pk group)) by reflexivity.
    unfold revoked_rows. apply filter_none. intros r Hr.
    apply not_true_iff_false. rewrite !andb_true_iff, !bool_decide_eq_true.
    intros [[[Hcode Hct] _] _].
    exact (Hnone (row_permission r) (Hfk r Hr) Hct Hcode).
Qed.

End Alias.

Lemma deprecated_assign_warns_before_failing_witness :
  exists message,
    @GroupObjectPermissionManager.assign demo_checker generic_manager "view"
      editors unsaved member_cached_state
    = (Raise ObjectNotPersisted,
       set_warnings [(message, DeprecationWarning)] member_cached_state).
Proof.
  destruct (@deprecated_assign_warns_before_failing demo_checker
              generic_manager "view" alice editors unsaved member_cached_state
              eq_refl) as [_ [message Hrun]].
  exists message. exact Hrun.
Defined.

Lemma revoke_of_unknown_codename_deletes_nothing_witness :
  exists st',
    @GroupObjectPermissionManager.remove_perm demo_checker generic_manager
      "nonexistent" editors document member_cached_granted_state
    = (Return tt, st')
    /\ group_object_permission st'
       = group_object_permission member_cached_granted_state.
Proof.
  destruct (@revoke_of_unknown_codename_deletes_nothing demo_checker
              generic_manager "nonexistent" document 5
              member_cached_granted_state eq_refl) as [_ Hgroup].
  - simpl. intros p [<- | []] _. discriminate.
  - apply (Hgroup editors). simpl. intros r [<- | []]. now left.
Defined.

(** ** Grant, then revoke, on the cache *)

Lemma patch_on_revoke_after_grant key perm c :
  (forall l, c !! key = Some l -> ~ In perm l) ->
  patch_on_revoke key perm (patch_on_grant key perm c) = c.
Proof.
  intros Hfresh. destruct (c !! key) as [l|] eqn:Hl.
  - specialize (Hfresh l eq_refl).
    rewrite (patch_on_grant_fresh key perm l c Hl Hfresh).
    unfold patch_on_revoke. rewrite lookup_insert_eq.
    assert (contains perm (l ++ [perm]) = true) as ->
        by (apply contains_In, in_or_app; right; now left).
    rewrite (pop_first_split perm l [] Hfresh), app_nil_r.
    rewrite insert_insert_eq. now apply insert_id.
  - rewrite (patch_on_grant_absent key perm c Hl).
    unfold patch_on_revoke. now rewrite Hl.
Qed.

Section RoundTrip.
Context `{!ObjectPermissionChecker}.

(** X13: on a saved object, with a known permission and the table under its
    uniqueness constraint, a user grant followed by the revoke of the same
    (permission, user, object) gives back the cache as it was, entry for
    entry and in the same order, provided the cached list of (user, object)
    did not hold the codename before (or was absent). *)
Theorem user_cache_round_trip self perm user obj pk P st :
  obj_pk obj = Some pk ->
  Permission_objects_get (get_for_model obj) perm st = (Return P, st) ->
  unique_together (user_object_permission st) ->
  (forall l, cache st !! user_key user obj = Some l -> ~ In perm l) ->
  exists r st1 st2,
    UserObjectPermissionManager.assign_perm self perm user obj st
    = (Return r, st1)
    /\ UserObjectPermissionManager.remove_perm self perm user obj st1
       = (Return tt, st2)
    /\ cache st2 = cache st.
Proof.
  intros Hpk HP Hu Hfresh.
  destruct (user_assign_perm_run self perm user obj pk P st Hpk HP Hu)
    as (r & rows1 & Hrun1 & _).
  eexists r, _, _. split; [exact Hrun1 |].
  split; [apply (user_remove_perm_run _ _ _ _ pk _ Hpk) |].
  simpl. now apply patch_on_revoke_after_grant.
Qed.

End RoundTrip.

Lemma user_cache_round_trip_witness :
  exists r st1 st2,
    @UserObjectPermissionManager.assign_perm demo_checker generic_manager
      "view" alice document
      (demo_state {[ demo_key (UserIdentity 1) document := ["edit"; "add"] ]})
    = (Return r, st1)
    /\ @UserObjectPermissionManager.remove_perm demo_checker generic_manager
         "view" alice document st1
       = (Return tt, st2)
    /\ cache st2
       = cache (demo_state
                  {[ demo_key (UserIdentity 1) document := ["edit"; "add"] ]}).
Proof.
  apply (@user_cache_round_trip demo_checker generic_manager
           "view" alice document 5 view
           (demo_state
              {[ demo_key (UserIdentity 1) document := ["edit"; "add"] ]})).
  - reflexivity.
  - reflexivity.
  - apply NoDup_nil_2.
  - intros l Hl. unfold demo_state in Hl. simpl in Hl.
    apply lookup_singleton_Some in Hl as [_ <-].
    simpl. intros [H | [H | []]]; discriminate H.
Defined.
